(** * API-Pizzaria: authentication, tokens and the order ledger

    A shallow embedding of [models.py], [auth_routes.py] and
    [order_routes.py], and the properties of the order-management
    specification stated and settled against it.

    How the Python is read:
    - a table of the SQLite database is the list of its rows in rowid
      order; [Integer] columns are [Z], [String] columns are [string],
      [Boolean] columns are [bool], [Float] columns are IEEE-754 binary64
      values (the executable [spec_float] of the standard library);
    - the store holds signed 64-bit integers: the INSERT of an order whose
      owner id, taken from the request body, is outside that range raises
      [OverflowError] and writes nothing.  The range of the other integers
      of a request (the quantity of an item, the ids of the path) is not
      modelled, and a NaN of a [Float] column, which the store keeps as
      NULL, stays a NaN here: the effect of adding an item
      ([efeito_da_operacao], X3) is stated for quantities in the 64-bit
      range and for totals that are not NaN;
    - a SQLAlchemy [Session] is a pair of databases: what has been
      committed, and what the open transaction sees.  Every query of the
      handlers runs with the session's default autoflush, so pending
      inserts, deletes and attribute writes are visible to it.  A handler
      that raises leaves the committed database as it was;
    - primary keys are SQLite's [INTEGER PRIMARY KEY]; foreign keys are not
      enforced (the engine is created without the pragma), so an order may
      name any integer as its owner;
    - [HTTPException], the [AttributeError] of an attribute access on
      [None] and the [OverflowError] of the database driver are the ways a
      handler can fail;
    - [bcrypt_context], [jwt.encode] and the clock are collaborators from
      outside the repository and are passed in explicitly;
    - [dependencies.py] ([pegar_sessao], [verificar_token]) and
      [schemas.py] are not among the sources: the handlers receive the
      authenticated [Usuario] as an argument, and token validation follows
      the specification. *)

From Stdlib Require Import ZArith List String Ascii Bool Lia.
From Stdlib Require Import Floats.SpecFloat DecimalString DecimalPos DecimalZ.
Import ListNotations.

Local Open Scope string_scope.
Local Open Scope Z_scope.

(** ** Python numbers *)

Module PyFloat.

(** Python's [float]: binary64, round to nearest even. *)
Definition float : Type := spec_float.

Definition prec : Z := 53.
Definition emax : Z := 1024.

(** [float(n)] for an [int] (the implicit conversion of [float * int] and
    of [0 + float]); correctly rounded.  Python raises [OverflowError]
    beyond the binary64 range, far outside any integer the store holds. *)
Definition of_int (n : Z) : float := binary_normalize prec emax n 0 false.

Definition mul (x y : float) : float := SFmul prec emax x y.
Definition add (x y : float) : float := SFadd prec emax x y.
Definition div (x y : float) : float := SFdiv prec emax x y.

(** The value of a decimal literal [n/d], e.g. [9.90] is [decimal 990 100]. *)
Definition decimal (n d : Z) : float := div (of_int n) (of_int d).

(** [math.isnan]. *)
Definition is_nan (x : float) : bool :=
  match x with
  | S754_nan => true
  | _ => false
  end.

(** The builtin [sum]: starts from the integer [0] and adds from the left.
    (The compensated summation of recent CPython gives the same result
    whenever the partial sums are exact, which is the case in the worked
    scenario below.) *)
Definition sum (xs : list float) : float := fold_left add xs (of_int 0).

End PyFloat.

Definition float : Type := PyFloat.float.

(** The integers an [INTEGER] column of the store can hold. *)
Definition cabe_em_int64 (n : Z) : bool :=
  (- 2 ^ 63 <=? n) && (n <? 2 ^ 63).

(** [str(n)] and [int(s)] on integers. *)
Definition py_str (n : Z) : string := NilZero.string_of_int (Z.to_int n).

Definition py_int (s : string) : option Z :=
  option_map Z.of_int (NilZero.int_of_string s).

(** ** models.py *)

Module Usuario.
Record t : Type := Build
  { id : Z;
    nome : string;
    email : string;
    senha : string;
    ativo : bool;
    admin : bool }.
End Usuario.

Module Pedido.
Record t : Type := Build
  { id : Z;
    status : string;
    usuario : Z;
    preco : float }.

(** [Pedido.__init__(usuario, status="PENDENTE", preco=0)]; the primary
    key is given by the store when the row is inserted. *)
Definition init (usuario : Z) (status : string) (preco : float) (id : Z) : t :=
  {| id := id; status := status; usuario := usuario; preco := preco |}.

Definition novo (usuario : Z) : Z -> t :=
  init usuario "PENDENTE" (PyFloat.of_int 0).

Definition com_status (p : t) (s : string) : t :=
  {| id := id p; status := s; usuario := usuario p; preco := preco p |}.

Definition com_preco (p : t) (x : float) : t :=
  {| id := id p; status := status p; usuario := usuario p; preco := x |}.
End Pedido.

Module ItemPedido.
Record t : Type := Build
  { id : Z;
    quantidade : Z;
    sabor : string;
    tamanho : string;
    preco_unitario : float;
    pedido : Z }.

(** [ItemPedido.__init__(quantidade, sabor, tamanho, preco_unitario, pedido)]. *)
Definition init (quantidade : Z) (sabor tamanho : string)
  (preco_unitario : float) (pedido : Z) (id : Z) : t :=
  {| id := id; quantidade := quantidade; sabor := sabor; tamanho := tamanho;
     preco_unitario := preco_unitario; pedido := pedido |}.

(** The summand of [calcular_preco]: [item.preco_unitario * item.quantidade]. *)
Definition subtotal (i : t) : float :=
  PyFloat.mul (preco_unitario i) (PyFloat.of_int (quantidade i)).
End ItemPedido.

(** The three tables of [banco.db]. *)
Record Banco : Type := mkBanco
  { usuarios : list Usuario.t;
    pedidos : list Pedido.t;
    itens_pedido : list ItemPedido.t }.

Definition banco_vazio : Banco :=
  {| usuarios := []; pedidos := []; itens_pedido := [] |}.

(** [INTEGER PRIMARY KEY] of SQLite: one more than the largest key in the
    table, 1 in an empty table. *)
Definition proximo_id (ids : list Z) : Z := 1 + fold_right Z.max 0 ids.

(** ** The session *)

Inductive Excecao : Type :=
| HTTPException (status_code : Z) (detail : string)
| AttributeError (atributo : string)
| OverflowError.

Record Session : Type := mkSession
  { persistido : Banco;
    transacao : Banco }.

Definition Sessao (A : Type) : Type := Session -> (Excecao + A) * Session.

Definition ret {A} (a : A) : Sessao A := fun s => (inr a, s).

Definition bind {A B} (m : Sessao A) (k : A -> Sessao B) : Sessao B :=
  fun s =>
    match m s with
    | (inl e, s') => (inl e, s')
    | (inr a, s') => k a s'
    end.

Definition raise {A} (e : Excecao) : Sessao A := fun s => (inl e, s).

Notation "x <- m ;; k" := (bind m (fun x => k))
  (at level 61, m at next level, right associativity).
Notation "m ;;; k" := (bind m (fun _ => k))
  (at level 61, right associativity).

(** [pegar_sessao]: open a session on the database, run the handler, close
    the session.  Only what was committed survives. *)
Definition executar {A} (h : Sessao A) (b : Banco) : (Excecao + A) * Banco :=
  let (r, s) := h {| persistido := b; transacao := b |} in (r, persistido s).

Definition ler {A} (f : Banco -> A) : Sessao A :=
  fun s => (inr (f (transacao s)), s).

Definition escrever (f : Banco -> Banco) : Sessao unit :=
  fun s => (inr tt, {| persistido := persistido s; transacao := f (transacao s) |}).

(** [session.commit()]. *)
Definition commit : Sessao unit :=
  fun s => (inr tt, {| persistido := transacao s; transacao := transacao s |}).

(** *** Queries *)

(** [session.query(Usuario).filter(Usuario.email == email).first()]. *)
Definition usuario_por_email (email : string) (b : Banco) : option Usuario.t :=
  find (fun u => String.eqb (Usuario.email u) email) (usuarios b).

(** [session.query(Pedido).filter(Pedido.id == id).first()]. *)
Definition pedido_por_id (id : Z) (b : Banco) : option Pedido.t :=
  find (fun p => Pedido.id p =? id) (pedidos b).

(** [session.query(ItemPedido).filter(ItemPedido.id == id).first()]. *)
Definition item_por_id (id : Z) (b : Banco) : option ItemPedido.t :=
  find (fun i => ItemPedido.id i =? id) (itens_pedido b).

(** The relationship [Pedido.itens]: the rows of [itens_pedido] whose
    foreign key [pedido] is the order's id. *)
Definition itens_do_pedido (id_pedido : Z) (b : Banco) : list ItemPedido.t :=
  filter (fun i => ItemPedido.pedido i =? id_pedido) (itens_pedido b).

(** [session.query(Pedido).filter(Pedido.usuario == id).all()]. *)
Definition pedidos_do_usuario (id_usuario : Z) (b : Banco) : list Pedido.t :=
  filter (fun p => Pedido.usuario p =? id_usuario) (pedidos b).

(** *** Writes *)

Definition inserir_usuario (novo : Z -> Usuario.t) (b : Banco) : Banco :=
  {| usuarios := (usuarios b ++ [novo (proximo_id (map Usuario.id (usuarios b)))])%list;
     pedidos := pedidos b;
     itens_pedido := itens_pedido b |}.

Definition inserir_pedido (novo : Z -> Pedido.t) (b : Banco) : Banco :=
  {| usuarios := usuarios b;
     pedidos := (pedidos b ++ [novo (proximo_id (map Pedido.id (pedidos b)))])%list;
     itens_pedido := itens_pedido b |}.

Definition inserir_item (novo : Z -> ItemPedido.t) (b : Banco) : Banco :=
  {| usuarios := usuarios b;
     pedidos := pedidos b;
     itens_pedido :=
       (itens_pedido b ++ [novo (proximo_id (map ItemPedido.id (itens_pedido b)))])%list |}.

Definition apagar_item (id : Z) (b : Banco) : Banco :=
  {| usuarios := usuarios b;
     pedidos := pedidos b;
     itens_pedido := filter (fun i => negb (ItemPedido.id i =? id)) (itens_pedido b) |}.

(** The UPDATE of a mutated [Pedido] object: its row is replaced. *)
Definition gravar_pedido (p : Pedido.t) (b : Banco) : Banco :=
  {| usuarios := usuarios b;
     pedidos := map (fun q => if Pedido.id q =? Pedido.id p then p else q) (pedidos b);
     itens_pedido := itens_pedido b |}.

(** [session.add(obj)] for each mapped class; the object comes back with
    the primary key it receives at the flush.  The INSERT of an order binds
    the owner id the request gave: the driver raises [OverflowError] for an
    integer outside signed 64 bits, before anything is written. *)
Definition session_add_usuario (novo : Z -> Usuario.t) : Sessao Usuario.t :=
  id <- ler (fun b => proximo_id (map Usuario.id (usuarios b))) ;;
  escrever (inserir_usuario novo) ;;;
  ret (novo id).

Definition session_add_pedido (novo : Z -> Pedido.t) : Sessao Pedido.t :=
  id <- ler (fun b => proximo_id (map Pedido.id (pedidos b))) ;;
  if cabe_em_int64 (Pedido.usuario (novo id))
  then escrever (inserir_pedido novo) ;;; ret (novo id)
  else raise OverflowError.

Definition session_add_item (novo : Z -> ItemPedido.t) : Sessao ItemPedido.t :=
  id <- ler (fun b => proximo_id (map ItemPedido.id (itens_pedido b))) ;;
  escrever (inserir_item novo) ;;;
  ret (novo id).

(** [session.delete(item_pedido)]. *)
Definition session_delete_item (i : ItemPedido.t) : Sessao unit :=
  escrever (apagar_item (ItemPedido.id i)).

(** [pedido.status = s]: the object is changed and the session tracks it. *)
Definition atribuir_status (p : Pedido.t) (s : string) : Sessao Pedido.t :=
  escrever (gravar_pedido (Pedido.com_status p s)) ;;;
  ret (Pedido.com_status p s).

(** [pedido.itens] read through the session. *)
Definition carregar_itens (p : Pedido.t) : Sessao (list ItemPedido.t) :=
  ler (itens_do_pedido (Pedido.id p)).

(** [Pedido.calcular_preco]:
    [self.preco = sum(item.preco_unitario * item.quantidade for item in self.itens)]. *)
Definition calcular_preco (self : Pedido.t) : Sessao Pedido.t :=
  itens <- carregar_itens self ;;
  escrever (gravar_pedido
              (Pedido.com_preco self (PyFloat.sum (map ItemPedido.subtotal itens)))) ;;;
  ret (Pedido.com_preco self (PyFloat.sum (map ItemPedido.subtotal itens))).

(** An attribute read or a method call on the result of [.first()], which
    is [None] when no row matched. *)
Definition atributo {A} (nome : string) (o : option Pedido.t)
  (k : Pedido.t -> Sessao A) : Sessao A :=
  match o with
  | Some p => k p
  | None => raise (AttributeError nome)
  end.

(** ** Request schemas *)

(** Modelled from the spec: [schemas.py] is not part of the sources.  Each
    schema carries the fields the handlers read from it, typed as the
    columns they are stored in. *)
Record PedidoSchema : Type := mkPedidoSchema
  { ps_usuario : Z }.

Record ItemPedidoSchema : Type := mkItemPedidoSchema
  { is_quantidade : Z;
    is_sabor : string;
    is_tamanho : string;
    is_preco_unitario : float }.

Record UsuarioSchema : Type := mkUsuarioSchema
  { us_nome : string;
    us_email : string;
    us_senha : string;
    us_ativo : bool;
    us_admin : bool }.

Record LoginSchema : Type := mkLoginSchema
  { ls_email : string;
    ls_senha : string }.

(** ** order_routes.py *)

Definition detalhe_pedido_nao_encontrado : string := "Pedido Não Encontrado".
Definition detalhe_pedido_nao_existe : string := "Pedido Não Existe".
Definition detalhe_item_nao_existe : string := "Item do Pedido Não Existe".
Definition detalhe_sem_autorizacao : string :=
  "Você Não Tem Autorização Para Fazer Essa Operação".

(** The guard of every order-targeting handler:
    [not usuario.admin and usuario.id != pedido.usuario]. *)
Definition sem_autorizacao (usuario : Usuario.t) (pedido : Pedido.t) : bool :=
  negb (Usuario.admin usuario)
  && negb (Usuario.id usuario =? Pedido.usuario pedido).

(** [criar_pedido]: answers with the id of the new order. *)
Definition criar_pedido (pedido_schema : PedidoSchema) : Sessao Z :=
  novo_pedido <- session_add_pedido (Pedido.novo (ps_usuario pedido_schema)) ;;
  commit ;;;
  ret (Pedido.id novo_pedido).

(** [cancelar_pedido]: answers with the order. *)
Definition cancelar_pedido (id_pedido : Z) (usuario : Usuario.t) : Sessao Pedido.t :=
  pedido <- ler (pedido_por_id id_pedido) ;;
  match pedido with
  | None => raise (HTTPException 400 detalhe_pedido_nao_encontrado)
  | Some pedido =>
      if sem_autorizacao usuario pedido
      then raise (HTTPException 401 detalhe_sem_autorizacao)
      else
        pedido <- atribuir_status pedido "CANCELADO" ;;
        commit ;;;
        ret pedido
  end.

(** [listar_pedidos]. *)
Definition listar_pedidos (usuario : Usuario.t) : Sessao (list Pedido.t) :=
  if negb (Usuario.admin usuario)
  then raise (HTTPException 401 detalhe_sem_autorizacao)
  else ler pedidos.

(** [adicionar_item_pedido]: answers with [item_id] and [preco_pedido]. *)
Definition adicionar_item_pedido (id_pedido : Z)
  (item_pedido_schema : ItemPedidoSchema) (usuario : Usuario.t)
  : Sessao (Z * float) :=
  pedido <- ler (pedido_por_id id_pedido) ;;
  match pedido with
  | None => raise (HTTPException 400 detalhe_pedido_nao_existe)
  | Some pedido =>
      if sem_autorizacao usuario pedido
      then raise (HTTPException 401 detalhe_sem_autorizacao)
      else
        item_pedido <-
          session_add_item
            (ItemPedido.init (is_quantidade item_pedido_schema)
               (is_sabor item_pedido_schema) (is_tamanho item_pedido_schema)
               (is_preco_unitario item_pedido_schema) id_pedido) ;;
        pedido <- calcular_preco pedido ;;
        commit ;;;
        ret (ItemPedido.id item_pedido, Pedido.preco pedido)
  end.

(** [remover_item_pedido]: answers with [quantidade_itens_pedido] and the
    order.  Both rows are fetched with [id_item_pedido]; [pedido] may be
    [None] when its attribute [usuario] is read (only if the caller is not
    an administrator, [and] being lazy) and when [calcular_preco] is called. *)
Definition remover_item_pedido (id_item_pedido : Z) (usuario : Usuario.t)
  : Sessao (nat * Pedido.t) :=
  item_pedido <- ler (item_por_id id_item_pedido) ;;
  pedido <- ler (pedido_por_id id_item_pedido) ;;
  match item_pedido with
  | None => raise (HTTPException 400 detalhe_item_nao_existe)
  | Some item_pedido =>
      negado <-
        (if negb (Usuario.admin usuario)
         then atributo "usuario" pedido
                (fun p => ret (negb (Usuario.id usuario =? Pedido.usuario p)))
         else ret false) ;;
      if (negado : bool)
      then raise (HTTPException 401 detalhe_sem_autorizacao)
      else
        session_delete_item item_pedido ;;;
        pedido <- atributo "calcular_preco" pedido calcular_preco ;;
        commit ;;;
        itens <- carregar_itens pedido ;;
        ret (List.length itens, pedido)
  end.

(** [finalizar_pedido]: answers with the order. *)
Definition finalizar_pedido (id_pedido : Z) (usuario : Usuario.t) : Sessao Pedido.t :=
  pedido <- ler (pedido_por_id id_pedido) ;;
  match pedido with
  | None => raise (HTTPException 400 detalhe_pedido_nao_encontrado)
  | Some pedido =>
      if sem_autorizacao usuario pedido
      then raise (HTTPException 401 detalhe_sem_autorizacao)
      else
        pedido <- atribuir_status pedido "FINALIZADO" ;;
        commit ;;;
        ret pedido
  end.

(** [visualizar_pedido]: answers with the number of items and the order. *)
Definition visualizar_pedido (id_pedido : Z) (usuario : Usuario.t)
  : Sessao (nat * Pedido.t) :=
  pedido <- ler (pedido_por_id id_pedido) ;;
  match pedido with
  | None => raise (HTTPException 400 detalhe_pedido_nao_encontrado)
  | Some pedido =>
      if sem_autorizacao usuario pedido
      then raise (HTTPException 401 detalhe_sem_autorizacao)
      else
        itens <- carregar_itens pedido ;;
        ret (List.length itens, pedido)
  end.

(** [listar_pedidos_usuario]. *)
Definition listar_pedidos_usuario (usuario : Usuario.t) : Sessao (list Pedido.t) :=
  ler (pedidos_do_usuario (Usuario.id usuario)).

(** The routes of [order_router].  Every route depends on
    [verificar_token], so each request comes with the authenticated
    [usuario]; [criar_pedido] does not receive it. *)
Inductive RotaPedido : Type :=
| CriarPedido (pedido_schema : PedidoSchema)
| Cancelar (id_pedido : Z)
| Listar
| AdicionarItem (id_pedido : Z) (item_pedido_schema : ItemPedidoSchema)
| RemoverItem (id_item_pedido : Z)
| Finalizar (id_pedido : Z)
| Visualizar (id_pedido : Z)
| PedidosUsuario.

Inductive Resposta : Type :=
| PedidoCriado (id_pedido : Z)
| PedidoCancelado (pedido : Pedido.t)
| ListaPedidos (pedidos : list Pedido.t)
| ItemCriado (item_id : Z) (preco_pedido : float)
| ItemRemovido (quantidade_itens_pedido : nat) (pedido : Pedido.t)
| PedidoFinalizado (pedido : Pedido.t)
| PedidoVisualizado (quantidade_itens_pedido : nat) (pedido : Pedido.t).

Definition fmap {A B} (f : A -> B) (m : Sessao A) : Sessao B :=
  a <- m ;; ret (f a).

Definition order_router (rota : RotaPedido) (usuario : Usuario.t) : Sessao Resposta :=
  match rota with
  | CriarPedido pedido_schema => fmap PedidoCriado (criar_pedido pedido_schema)
  | Cancelar id_pedido => fmap PedidoCancelado (cancelar_pedido id_pedido usuario)
  | Listar => fmap ListaPedidos (listar_pedidos usuario)
  | AdicionarItem id_pedido item_pedido_schema =>
      fmap (fun r => ItemCriado (fst r) (snd r))
        (adicionar_item_pedido id_pedido item_pedido_schema usuario)
  | RemoverItem id_item_pedido =>
      fmap (fun r => ItemRemovido (fst r) (snd r))
        (remover_item_pedido id_item_pedido usuario)
  | Finalizar id_pedido => fmap PedidoFinalizado (finalizar_pedido id_pedido usuario)
  | Visualizar id_pedido =>
      fmap (fun r => PedidoVisualizado (fst r) (snd r))
        (visualizar_pedido id_pedido usuario)
  | PedidosUsuario => fmap ListaPedidos (listar_pedidos_usuario usuario)
  end.

(** One request to the order routes against the database. *)
Definition pedir (rota : RotaPedido) (usuario : Usuario.t) (b : Banco)
  : (Excecao + Resposta) * Banco :=
  executar (order_router rota usuario) b.

(** ** main.py: configuration and the password context *)

(** [SECRET_KEY], [ALGORITHM] and [ACCESS_TOKEN_EXPIRE_MINUTES], read from
    the environment when the process starts. *)
Record Config : Type := mkConfig
  { SECRET_KEY : string;
    ALGORITHM : string;
    ACCESS_TOKEN_EXPIRE_MINUTES : Z }.

(** [bcrypt_context = CryptContext(schemes=["bcrypt"])]: [hash] draws a
    salt, here its first argument; [verify secret hash] checks a password
    against a stored hash. *)
Record CryptContext : Type := mkCryptContext
  { hash : string -> string -> string;
    verify : string -> string -> bool }.

(** ** Tokens *)

(** The claims that [criar_token] signs.  Instants and durations are whole
    seconds, the unit of the [exp] claim of a JWT. *)
Record Claims : Type := mkClaims
  { sub : option string;
    exp : Z }.

Record Token : Type := mkToken
  { alg : string;
    claims : Claims;
    assinatura : string }.

Definition timedelta_minutes (m : Z) : Z := 60 * m.
Definition timedelta_days (d : Z) : Z := 86400 * d.

Inductive AuthError : Type :=
| InvalidCredential
| Expired.

Section Jose.

(** The keyed signature of [jose.jwt]: algorithm, key, signed content. *)
Variable assinar : string -> string -> Claims -> string.

Variable config : Config.

Definition jwt_encode (dic_info : Claims) (key algorithm : string) : Token :=
  {| alg := algorithm; claims := dic_info;
     assinatura := assinar algorithm key dic_info |}.

(** [criar_token(id_usuario, duracao_token)], with the reading [agora] of
    [datetime.now(timezone.utc)]. *)
Definition criar_token (agora : Z) (id_usuario : Z) (duracao_token : Z) : Token :=
  let data_expiracao := agora + duracao_token in
  let dic_info := {| sub := Some (py_str id_usuario); exp := data_expiracao |} in
  jwt_encode dic_info (SECRET_KEY config) (ALGORITHM config).

(** The default of [duracao_token]. *)
Definition duracao_padrao : Z :=
  timedelta_minutes (ACCESS_TOKEN_EXPIRE_MINUTES config).

(** Modelled from the spec: [verificar_token] lives in [dependencies.py],
    which is not part of the sources.  This is [validate] of the Token
    Service: it verifies signature and expiration, fails with
    [InvalidCredential] if the signature does not verify or the subject is
    missing or malformed, and with [Expired] if the current time is at or
    after the embedded expiration. *)
Definition validate (agora : Z) (token : Token) : AuthError + Z :=
  if negb (String.eqb (alg token) (ALGORITHM config)
           && String.eqb (assinatura token)
                (assinar (ALGORITHM config) (SECRET_KEY config) (claims token)))
  then inl InvalidCredential
  else if exp (claims token) <=? agora
  then inl Expired
  else
    match sub (claims token) with
    | None => inl InvalidCredential
    | Some s =>
        match py_int s with
        | None => inl InvalidCredential
        | Some id_usuario => inr id_usuario
        end
    end.

End Jose.

(** ** auth_routes.py *)

Definition detalhe_email_cadastrado : string := "Email Já Cadastrado!".
Definition detalhe_credenciais_invalidas : string :=
  "Usuário Não Encontrado ou Credenciais Inválidas!".

(** What [autenticar_usuario] returns: [False] or the [Usuario]. *)
Inductive Autenticacao : Type :=
| PyFalse
| PyUsuario (usuario : Usuario.t).

Section Auth.

Variable bcrypt_context : CryptContext.
Variable assinar : string -> string -> Claims -> string.
Variable config : Config.

(** [autenticar_usuario(email, senha, session)]. *)
Definition autenticar_usuario (email senha : string) : Sessao Autenticacao :=
  usuario <- ler (usuario_por_email email) ;;
  match usuario with
  | None => ret PyFalse
  | Some usuario =>
      if negb (verify bcrypt_context senha (Usuario.senha usuario))
      then ret PyFalse
      else ret (PyUsuario usuario)
  end.

(** [criar_conta]; [sal] is the salt [bcrypt_context.hash] draws.  Answers
    with the confirmation message. *)
Definition criar_conta (usuario_schema : UsuarioSchema) (sal : string)
  : Sessao string :=
  usuario <- ler (usuario_por_email (us_email usuario_schema)) ;;
  match usuario with
  | Some _ => raise (HTTPException 400 detalhe_email_cadastrado)
  | None =>
      let senha_criptografada := hash bcrypt_context sal (us_senha usuario_schema) in
      session_add_usuario
        (fun id => Usuario.Build id (us_nome usuario_schema) (us_email usuario_schema)
           senha_criptografada (us_ativo usuario_schema) (us_admin usuario_schema)) ;;;
      commit ;;;
      ret ("Email " ++ us_email usuario_schema ++ " Cadastrado Com Sucesso!")%string
  end.

(** [login]: the access token and the seven-day refresh token; the clock
    is read once for each. *)
Definition login (login_schema : LoginSchema) (agora1 agora2 : Z)
  : Sessao (Token * Token) :=
  usuario <- autenticar_usuario (ls_email login_schema) (ls_senha login_schema) ;;
  match usuario with
  | PyFalse => raise (HTTPException 400 detalhe_credenciais_invalidas)
  | PyUsuario usuario =>
      let access_token :=
        criar_token assinar config agora1 (Usuario.id usuario) (duracao_padrao config) in
      let refresh_token :=
        criar_token assinar config agora2 (Usuario.id usuario) (timedelta_days 7) in
      ret (access_token, refresh_token)
  end.

(** [login_form]: [username] carries the email. *)
Definition login_form (username password : string) (agora : Z) : Sessao Token :=
  usuario <- autenticar_usuario username password ;;
  match usuario with
  | PyFalse => raise (HTTPException 400 detalhe_credenciais_invalidas)
  | PyUsuario usuario =>
      ret (criar_token assinar config agora (Usuario.id usuario) (duracao_padrao config))
  end.

(** [use_refresh_token]. *)
Definition use_refresh_token (usuario : Usuario.t) (agora : Z) : Token :=
  criar_token assinar config agora (Usuario.id usuario) (duracao_padrao config).

End Auth.

(** ** The vocabulary of the specification *)

(** Authorization Policy: [can_access(user, order) = user.is_admin OR
    user.id == order.owner_id]. *)
Definition can_access (usuario : Usuario.t) (pedido : Pedido.t) : bool :=
  Usuario.admin usuario || (Usuario.id usuario =? Pedido.usuario pedido).

(** The error taxonomy, read off the status code and the detail of the
    [HTTPException] the handlers raise. *)
Definition NotFound (e : Excecao) : Prop :=
  e = HTTPException 400 detalhe_pedido_nao_encontrado
  \/ e = HTTPException 400 detalhe_pedido_nao_existe
  \/ e = HTTPException 400 detalhe_item_nao_existe.

Definition Unauthorized : Excecao := HTTPException 401 detalhe_sem_autorizacao.

Definition DuplicateEmail : Excecao := HTTPException 400 detalhe_email_cadastrado.

Definition InvalidCredentials : Excecao :=
  HTTPException 400 detalhe_credenciais_invalidas.

(** The derived total of an order in a database: the sum, over the items
    the order has there, of unit price times quantity. *)
Definition soma_dos_itens (id_pedido : Z) (b : Banco) : float :=
  PyFloat.sum (map ItemPedido.subtotal (itens_do_pedido id_pedido b)).

Definition total_derivado (b : Banco) (p : Pedido.t) : Prop :=
  Pedido.preco p = soma_dos_itens (Pedido.id p) b.

(** Every item belongs to an order of the database. *)
Definition integridade (b : Banco) : Prop :=
  forall i, In i (itens_pedido b) ->
    In (ItemPedido.pedido i) (map Pedido.id (pedidos b)).

(** Number of user records with a given email. *)
Definition registros_com_email (email : string) (b : Banco) : nat :=
  List.length (filter (fun u => String.eqb (Usuario.email u) email) (usuarios b)).

(** The database after a successful [adicionar_item_pedido]. *)
Definition banco_apos_adicionar (pedido : Pedido.t) (id_pedido : Z)
  (s : ItemPedidoSchema) (b : Banco) : Banco :=
  let b1 :=
    inserir_item
      (ItemPedido.init (is_quantidade s) (is_sabor s) (is_tamanho s)
         (is_preco_unitario s) id_pedido) b in
  gravar_pedido (Pedido.com_preco pedido (soma_dos_itens (Pedido.id pedido) b1)) b1.

(** The database after a successful [remover_item_pedido]: the item is
    gone and the order that was fetched has its total recomputed. *)
Definition banco_apos_remover (pedido : Pedido.t) (id_item_pedido : Z) (b : Banco)
  : Banco :=
  let b1 := apagar_item id_item_pedido b in
  gravar_pedido (Pedido.com_preco pedido (soma_dos_itens (Pedido.id pedido) b1)) b1.

(** The four handlers that take an order id and answer for that order. *)
Inductive OperacaoPedido : Type :=
| OpCancelar
| OpFinalizar
| OpAdicionarItem (item_pedido_schema : ItemPedidoSchema)
| OpVisualizar.

Definition rota_de (op : OperacaoPedido) (id_pedido : Z) : RotaPedido :=
  match op with
  | OpCancelar => Cancelar id_pedido
  | OpFinalizar => Finalizar id_pedido
  | OpAdicionarItem item_pedido_schema => AdicionarItem id_pedido item_pedido_schema
  | OpVisualizar => Visualizar id_pedido
  end.

(** The databases the service can be in: it starts empty, accounts are
    registered, and stored users call the order routes. *)
Inductive alcancavel (bcrypt_context : CryptContext) : Banco -> Prop :=
| alc_inicio : alcancavel bcrypt_context banco_vazio
| alc_criar_conta : forall b usuario_schema sal,
    alcancavel bcrypt_context b ->
    alcancavel bcrypt_context
      (snd (executar (criar_conta bcrypt_context usuario_schema sal) b))
| alc_pedir : forall b rota usuario,
    alcancavel bcrypt_context b ->
    In usuario (usuarios b) ->
    alcancavel bcrypt_context (snd (pedir rota usuario b)).

(** ** The worked scenario of the specification *)

Definition preco_9_90 : float := PyFloat.decimal 990 100.
Definition preco_5_00 : float := PyFloat.decimal 500 100.
Definition total_19_80 : float := PyFloat.decimal 1980 100.
Definition total_24_80 : float := PyFloat.decimal 2480 100.
Definition total_5_00 : float := PyFloat.decimal 500 100.

(** What the scenario observes: the totals answered by the two additions,
    the item count and the total answered by the removal, and the total
    the order has in the database at the end. *)
Record Observado : Type := mkObservado
  { apos_primeiro_item : float;
    apos_segundo_item : float;
    itens_restantes : nat;
    total_respondido : float;
    total_persistido : option float }.

(** Create an order for user 5, add (2 x 9.90), add (1 x 5.00), remove the
    first item; each step uses the ids answered by the steps before. *)
Definition cenario (usuario : Usuario.t) (sabor1 tamanho1 sabor2 tamanho2 : string)
  (b : Banco) : option Observado :=
  match pedir (CriarPedido {| ps_usuario := 5 |}) usuario b with
  | (inr (PedidoCriado id_pedido), b1) =>
      match pedir (AdicionarItem id_pedido
                     (mkItemPedidoSchema 2 sabor1 tamanho1 preco_9_90)) usuario b1 with
      | (inr (ItemCriado primeiro total1), b2) =>
          match pedir (AdicionarItem id_pedido
                         (mkItemPedidoSchema 1 sabor2 tamanho2 preco_5_00)) usuario b2 with
          | (inr (ItemCriado _ total2), b3) =>
              match pedir (RemoverItem primeiro) usuario b3 with
              | (inr (ItemRemovido n pedido), b4) =>
                  Some {| apos_primeiro_item := total1;
                          apos_segundo_item := total2;
                          itens_restantes := n;
                          total_respondido := Pedido.preco pedido;
                          total_persistido :=
                            option_map Pedido.preco (pedido_por_id id_pedido b4) |}
              | _ => None
              end
          | _ => None
          end
      | _ => None
      end
  | _ => None
  end.

(** ** Concrete data for running the handlers *)

(** A stand-in password context, used only to run the handlers on concrete
    requests; no general statement depends on it. *)
Definition bcrypt_exemplo : CryptContext :=
  {| hash := fun sal senha => ("$2b$12$" ++ sal ++ "$" ++ senha)%string;
     verify := fun senha h =>
       let n := String.length senha in
       String.eqb (substring (String.length h - n - 1) (n + 1) h)
         ("$" ++ senha)%string |}.

Definition conta_ana : UsuarioSchema :=
  {| us_nome := "Ana"; us_email := "ana@pizza.br"; us_senha := "segredo";
     us_ativo := true; us_admin := false |}.

Definition conta_bia : UsuarioSchema :=
  {| us_nome := "Bia"; us_email := "bia@pizza.br"; us_senha := "outra";
     us_ativo := true; us_admin := false |}.

Definition conta_inativa : UsuarioSchema :=
  {| us_nome := "Caio"; us_email := "caio@pizza.br"; us_senha := "senha";
     us_ativo := false; us_admin := false |}.

Definition ana : Usuario.t :=
  Usuario.Build 1 "Ana" "ana@pizza.br" "$2b$12$s1$segredo" true false.

Definition bia : Usuario.t :=
  Usuario.Build 2 "Bia" "bia@pizza.br" "$2b$12$s2$outra" true false.

(** Ana and Bia have registered. *)
Definition banco_contas : Banco :=
  snd (executar (criar_conta bcrypt_exemplo conta_bia "s2")
         (snd (executar (criar_conta bcrypt_exemplo conta_ana "s1") banco_vazio))).

Definition uma_pizza : ItemPedidoSchema :=
  mkItemPedidoSchema 1 "Mussarela" "Grande" preco_5_00.

(** Ana opens two orders (1 and 2) and adds one pizza to order 2: the item
    gets id 1. *)
Definition banco_dois_pedidos : Banco :=
  snd (pedir (AdicionarItem 2 uma_pizza) ana
         (snd (pedir (CriarPedido {| ps_usuario := 1 |}) ana
                 (snd (pedir (CriarPedido {| ps_usuario := 1 |}) ana banco_contas))))).

(** Ana opens one order and adds two pizzas to it: items 1 and 2 of
    order 1. *)
Definition banco_dois_itens : Banco :=
  snd (pedir (AdicionarItem 1 uma_pizza) ana
         (snd (pedir (AdicionarItem 1 uma_pizza) ana
                 (snd (pedir (CriarPedido {| ps_usuario := 1 |}) ana banco_contas))))).

(** Ana opens one order and adds one pizza: item 1 of order 1. *)
Definition banco_um_item : Banco :=
  snd (pedir (AdicionarItem 1 uma_pizza) ana
         (snd (pedir (CriarPedido {| ps_usuario := 1 |}) ana banco_contas))).

Definition eva : Usuario.t :=
  Usuario.Build 5 "Eva" "eva@pizza.br" "$2b$12$s5$x" true false.

Definition rui_admin : Usuario.t :=
  Usuario.Build 9 "Rui" "rui@pizza.br" "$2b$12$s9$y" true true.

(** Ana has opened one order, still empty. *)
Definition banco_pedido_de_ana : Banco :=
  snd (pedir (CriarPedido {| ps_usuario := 1 |}) ana banco_contas).


(** An account registered with [ativo = False]. *)
Definition banco_com_inativo : Banco :=
  snd (executar (criar_conta bcrypt_exemplo conta_inativa "s3") banco_vazio).

Definition assinar_exemplo (algorithm key : string) (c : Claims) : string :=
  (algorithm ++ ":" ++ key ++ ":"
   ++ match sub c with Some s => s | None => EmptyString end
   ++ ":" ++ py_str (exp c))%string.

Definition config_exemplo : Config :=
  {| SECRET_KEY := "chave"; ALGORITHM := "HS256"; ACCESS_TOKEN_EXPIRE_MINUTES := 30 |}.

(** ** Properties of the databases the service reaches *)

(** The three values the handlers write in the [status] column. *)
Definition status_conhecido (s : string) : Prop :=
  s = "PENDENTE" \/ s = "CANCELADO" \/ s = "FINALIZADO".

(** Every order has one of them. *)
Definition status_validos (b : Banco) : Prop :=
  forall p, In p (pedidos b) -> status_conhecido (Pedido.status p).

(** No two accounts share an email. *)
Definition emails_unicos (b : Banco) : Prop :=
  NoDup (map Usuario.email (usuarios b)).

(** Every stored password is an output of [bcrypt_context.hash]. *)
Definition senhas_cifradas (bcrypt_context : CryptContext) (b : Banco) : Prop :=
  forall u, In u (usuarios b) ->
    exists sal senha, Usuario.senha u = hash bcrypt_context sal senha.

(** A request that registers itself as administrator. *)
Definition conta_rui : UsuarioSchema :=
  {| us_nome := "Rui"; us_email := "rui@pizza.br"; us_senha := "mestre";
     us_ativo := true; us_admin := true |}.

Definition conta_eva : UsuarioSchema :=
  {| us_nome := "Eva"; us_email := "eva@pizza.br"; us_senha := "x";
     us_ativo := true; us_admin := false |}.

(** Five accounts: Ana, Bia, Caio, Rui and Eva, who is user 5. *)
Definition banco_cinco_contas : Banco :=
  snd (executar (criar_conta bcrypt_exemplo conta_eva "s5")
         (snd (executar (criar_conta bcrypt_exemplo conta_rui "s9")
                 (snd (executar (criar_conta bcrypt_exemplo conta_inativa "s3")
                         banco_contas))))).

(** Eva has opened one order, still empty: order 1. *)
Definition banco_pedido_de_eva : Banco :=
  snd (pedir (CriarPedido {| ps_usuario := 5 |}) eva banco_cinco_contas).

(** ** The statements of the specification that the code does not meet,
    as they are written *)


(** Registration as the specification words it: DuplicateEmail exactly
    when an active record with the email exists. *)
Definition duplicado_como_escrito (bcrypt_context : CryptContext)
  (usuario_schema : UsuarioSchema) (sal : string) (b : Banco) : Prop :=
  fst (executar (criar_conta bcrypt_context usuario_schema sal) b) = inl DuplicateEmail
  <-> exists u, In u (usuarios b)
                /\ Usuario.email u = us_email usuario_schema
                /\ Usuario.ativo u = true.

(** What a successful order operation answers and leaves in the database,
    for the order [pedido] stored under [id_pedido] in [b]:
    - cancel and finalize answer the order with the new status, the other
      columns kept, and store it so;
    - add-item, for a quantity in the 64-bit range, answers the id of an
      item that did not exist and the new total; the item is stored last
      among those of the order, with the order id, quantity, flavour and
      size of the request; the order is stored with the total answered;
      and when that total is not NaN the item has the unit price of the
      request and the total is the sum over the items of the order;
    - view answers the number of items of the order and the order, and
      leaves the database as it was. *)
Definition efeito_da_operacao (op : OperacaoPedido) (id_pedido : Z)
  (usuario : Usuario.t) (pedido : Pedido.t) (b : Banco) : Prop :=
  match op with
  | OpCancelar =>
      exists b',
        pedir (Cancelar id_pedido) usuario b
        = (inr (PedidoCancelado (Pedido.com_status pedido "CANCELADO")), b')
        /\ pedido_por_id id_pedido b' = Some (Pedido.com_status pedido "CANCELADO")
        /\ itens_pedido b' = itens_pedido b
  | OpFinalizar =>
      exists b',
        pedir (Finalizar id_pedido) usuario b
        = (inr (PedidoFinalizado (Pedido.com_status pedido "FINALIZADO")), b')
        /\ pedido_por_id id_pedido b' = Some (Pedido.com_status pedido "FINALIZADO")
        /\ itens_pedido b' = itens_pedido b
  | OpAdicionarItem s =>
      - 2 ^ 63 <= is_quantidade s < 2 ^ 63 ->
      exists item_id total item b',
        pedir (AdicionarItem id_pedido s) usuario b
        = (inr (ItemCriado item_id total), b')
        /\ item_por_id item_id b = None
        /\ item_por_id item_id b' = Some item
        /\ ItemPedido.id item = item_id
        /\ ItemPedido.pedido item = id_pedido
        /\ ItemPedido.quantidade item = is_quantidade s
        /\ ItemPedido.sabor item = is_sabor s
        /\ ItemPedido.tamanho item = is_tamanho s
        /\ itens_do_pedido id_pedido b' = (itens_do_pedido id_pedido b ++ [item])%list
        /\ pedido_por_id id_pedido b' = Some (Pedido.com_preco pedido total)
        /\ (PyFloat.is_nan total = false ->
            ItemPedido.preco_unitario item = is_preco_unitario s
            /\ total = soma_dos_itens id_pedido b')
  | OpVisualizar =>
      pedir (Visualizar id_pedido) usuario b
      = (inr (PedidoVisualizado
                (List.length (itens_do_pedido id_pedido b)) pedido), b)
  end.

(** Order creation as the specification words it: for the owner id of the
    body, whatever integer it is, the request succeeds and the new order
    is stored PENDENTE, with total 0, no items and that owner. *)
Definition criar_pedido_como_escrito (usuario : Usuario.t) (x : Z) (b : Banco)
  : Prop :=
  exists id_pedido b',
    pedir (CriarPedido {| ps_usuario := x |}) usuario b
    = (inr (PedidoCriado id_pedido), b')
    /\ pedido_por_id id_pedido b'
       = Some {| Pedido.id := id_pedido; Pedido.status := "PENDENTE";
                 Pedido.usuario := x; Pedido.preco := PyFloat.of_int 0 |}
    /\ itens_do_pedido id_pedido b' = [].

(** Unfolds the handlers and the session operations. *)
Ltac desdobrar :=
  unfold pedir, order_router, fmap, executar, criar_pedido, cancelar_pedido,
    finalizar_pedido, visualizar_pedido, adicionar_item_pedido,
    remover_item_pedido, listar_pedidos, listar_pedidos_usuario, calcular_preco,
    atribuir_status, carregar_itens, session_add_pedido, session_add_item,
    session_add_usuario, session_delete_item, atributo, commit, escrever, ler,
    raise, bind, ret;
  cbn [persistido transacao fst snd].

(** One more request by Ana, a stored user. *)
Ltac ana_pede :=
  apply alc_pedir; [| vm_compute; left; reflexivity].

(** * What the handlers compute *)

(** ** Running a handler: one equation per route *)

Lemma executar_criar_pedido (pedido_schema : PedidoSchema) (b : Banco) :
  executar (criar_pedido pedido_schema) b =
  if cabe_em_int64 (ps_usuario pedido_schema)
  then (inr (proximo_id (map Pedido.id (pedidos b))),
        inserir_pedido (Pedido.novo (ps_usuario pedido_schema)) b)
  else (inl OverflowError, b).
Proof.
  desdobrar. cbn [Pedido.novo Pedido.init Pedido.usuario].
  destruct (cabe_em_int64 (ps_usuario pedido_schema)); reflexivity.
Qed.

Lemma executar_cancelar_pedido (id_pedido : Z) (usuario : Usuario.t) (b : Banco) :
  executar (cancelar_pedido id_pedido usuario) b =
  match pedido_por_id id_pedido b with
  | None => (inl (HTTPException 400 detalhe_pedido_nao_encontrado), b)
  | Some pedido =>
      if sem_autorizacao usuario pedido
      then (inl Unauthorized, b)
      else (inr (Pedido.com_status pedido "CANCELADO"),
            gravar_pedido (Pedido.com_status pedido "CANCELADO") b)
  end.
Proof.
  desdobrar. destruct (pedido_por_id id_pedido b) as [pedido|]; [|reflexivity].
  destruct (sem_autorizacao usuario pedido); reflexivity.
Qed.

Lemma executar_finalizar_pedido (id_pedido : Z) (usuario : Usuario.t) (b : Banco) :
  executar (finalizar_pedido id_pedido usuario) b =
  match pedido_por_id id_pedido b with
  | None => (inl (HTTPException 400 detalhe_pedido_nao_encontrado), b)
  | Some pedido =>
      if sem_autorizacao usuario pedido
      then (inl Unauthorized, b)
      else (inr (Pedido.com_status pedido "FINALIZADO"),
            gravar_pedido (Pedido.com_status pedido "FINALIZADO") b)
  end.
Proof.
  desdobrar. destruct (pedido_por_id id_pedido b) as [pedido|]; [|reflexivity].
  destruct (sem_autorizacao usuario pedido); reflexivity.
Qed.

Lemma executar_visualizar_pedido (id_pedido : Z) (usuario : Usuario.t) (b : Banco) :
  executar (visualizar_pedido id_pedido usuario) b =
  match pedido_por_id id_pedido b with
  | None => (inl (HTTPException 400 detalhe_pedido_nao_encontrado), b)
  | Some pedido =>
      if sem_autorizacao usuario pedido
      then (inl Unauthorized, b)
      else (inr (List.length (itens_do_pedido (Pedido.id pedido) b), pedido), b)
  end.
Proof.
  desdobrar. destruct (pedido_por_id id_pedido b) as [pedido|]; [|reflexivity].
  destruct (sem_autorizacao usuario pedido); reflexivity.
Qed.

Lemma executar_adicionar_item_pedido (id_pedido : Z) (s : ItemPedidoSchema)
  (usuario : Usuario.t) (b : Banco) :
  executar (adicionar_item_pedido id_pedido s usuario) b =
  match pedido_por_id id_pedido b with
  | None => (inl (HTTPException 400 detalhe_pedido_nao_existe), b)
  | Some pedido =>
      if sem_autorizacao usuario pedido
      then (inl Unauthorized, b)
      else
        let b' := banco_apos_adicionar pedido id_pedido s b in
        (inr (proximo_id (map ItemPedido.id (itens_pedido b)),
              soma_dos_itens (Pedido.id pedido)
                (inserir_item
                   (ItemPedido.init (is_quantidade s) (is_sabor s) (is_tamanho s)
                      (is_preco_unitario s) id_pedido) b)),
         b')
  end.
Proof.
  desdobrar. destruct (pedido_por_id id_pedido b) as [pedido|]; [|reflexivity].
  destruct (sem_autorizacao usuario pedido); reflexivity.
Qed.

Lemma executar_remover_item_pedido (id_item_pedido : Z) (usuario : Usuario.t)
  (b : Banco) :
  executar (remover_item_pedido id_item_pedido usuario) b =
  match item_por_id id_item_pedido b with
  | None => (inl (HTTPException 400 detalhe_item_nao_existe), b)
  | Some item_pedido =>
      match pedido_por_id id_item_pedido b with
      | None =>
          (inl (AttributeError
                  (if Usuario.admin usuario then "calcular_preco" else "usuario")), b)
      | Some pedido =>
          if sem_autorizacao usuario pedido
          then (inl Unauthorized, b)
          else
            let b' := banco_apos_remover pedido (ItemPedido.id item_pedido) b in
            (inr (List.length (itens_do_pedido (Pedido.id pedido) b'),
                  Pedido.com_preco pedido
                    (soma_dos_itens (Pedido.id pedido)
                       (apagar_item (ItemPedido.id item_pedido) b))),
             b')
      end
  end.
Proof.
  desdobrar. unfold sem_autorizacao.
  destruct (item_por_id id_item_pedido b) as [item_pedido|]; [|reflexivity].
  destruct (pedido_por_id id_item_pedido b) as [pedido|];
    destruct (Usuario.admin usuario); cbn; try reflexivity.
  destruct (Usuario.id usuario =? Pedido.usuario pedido); reflexivity.
Qed.

(** The guard of the handlers is the negation of the policy. *)
Lemma sem_autorizacao_can_access (usuario : Usuario.t) (pedido : Pedido.t) :
  sem_autorizacao usuario pedido = negb (can_access usuario pedido).
Proof.
  unfold sem_autorizacao, can_access.
  destruct (Usuario.admin usuario), (Usuario.id usuario =? Pedido.usuario pedido);
    reflexivity.
Qed.

(** ** Keys and lookups *)

Lemma proximo_id_maior (ids : list Z) (x : Z) :
  In x ids -> x < proximo_id ids.
Proof.
  unfold proximo_id. induction ids as [|y ids IH]; cbn [fold_right In].
  - intros [].
  - intros [-> | Hx]; [lia | specialize (IH Hx); lia].
Qed.

Lemma proximo_id_novo (ids : list Z) : ~ In (proximo_id ids) ids.
Proof. intros H. apply proximo_id_maior in H. lia. Qed.

Lemma find_app_none {A} (f : A -> bool) (l1 l2 : list A) :
  find f l1 = None -> find f (l1 ++ l2)%list = find f l2.
Proof.
  induction l1 as [|a l1 IH]; cbn [find app]; [reflexivity|].
  destruct (f a); [discriminate | exact IH].
Qed.

Lemma find_app_some {A} (f : A -> bool) (l1 l2 : list A) (a : A) :
  find f l1 = Some a -> find f (l1 ++ l2)%list = Some a.
Proof.
  induction l1 as [|x l1 IH]; cbn [find app]; [discriminate|].
  destruct (f x); [trivial | exact IH].
Qed.

Lemma pedido_por_id_some (id : Z) (b : Banco) (p : Pedido.t) :
  pedido_por_id id b = Some p -> In p (pedidos b) /\ Pedido.id p = id.
Proof.
  unfold pedido_por_id. intros H. apply find_some in H.
  destruct H as [Hin Heq]. split; [exact Hin | lia].
Qed.

Lemma pedido_por_id_none (id : Z) (b : Banco) :
  ~ In id (map Pedido.id (pedidos b)) -> pedido_por_id id b = None.
Proof.
  unfold pedido_por_id. intros H.
  destruct (find _ (pedidos b)) as [p|] eqn:E; [|reflexivity].
  apply find_some in E. destruct E as [Hin Heq]. exfalso. apply H.
  apply in_map_iff. exists p. split; [lia | exact Hin].
Qed.

Lemma item_por_id_some (id : Z) (b : Banco) (i : ItemPedido.t) :
  item_por_id id b = Some i -> In i (itens_pedido b) /\ ItemPedido.id i = id.
Proof.
  unfold item_por_id. intros H. apply find_some in H.
  destruct H as [Hin Heq]. split; [exact Hin | lia].
Qed.

(** Rewriting a row keeps the keys of the table. *)
Lemma ids_gravar_pedido (p : Pedido.t) (b : Banco) :
  map Pedido.id (pedidos (gravar_pedido p b)) = map Pedido.id (pedidos b).
Proof.
  unfold gravar_pedido. cbn [pedidos]. rewrite map_map. apply map_ext_in.
  intros q _. destruct (Pedido.id q =? Pedido.id p) eqn:E; [lia | reflexivity].
Qed.

(** After the UPDATE, a lookup by the key of the row finds the new row,
    provided the key was in the table. *)
Lemma pedido_por_id_gravar (p q : Pedido.t) (b : Banco) :
  pedido_por_id (Pedido.id p) b = Some q ->
  pedido_por_id (Pedido.id p) (gravar_pedido p b) = Some p.
Proof.
  unfold pedido_por_id, gravar_pedido. cbn [pedidos].
  induction (pedidos b) as [|r l IH]; cbn [find map]; [discriminate|].
  destruct (Pedido.id r =? Pedido.id p) eqn:E.
  - intros _. rewrite Z.eqb_refl. reflexivity.
  - rewrite E. exact IH.
Qed.

(** The UPDATE leaves the rows with other keys as they were. *)
Lemma pedido_por_id_gravar_outro (p : Pedido.t) (id : Z) (b : Banco) :
  id <> Pedido.id p ->
  pedido_por_id id (gravar_pedido p b) = pedido_por_id id b.
Proof.
  intros Hne. unfold pedido_por_id, gravar_pedido. cbn [pedidos].
  induction (pedidos b) as [|r l IH]; cbn [find map]; [reflexivity|].
  destruct (Pedido.id r =? Pedido.id p) eqn:E.
  - assert ((Pedido.id r =? id) = false) as -> by lia.
    assert ((Pedido.id p =? id) = false) as -> by lia. exact IH.
  - destruct (Pedido.id r =? id); [reflexivity | exact IH].
Qed.

Lemma itens_do_pedido_gravar (p : Pedido.t) (id : Z) (b : Banco) :
  itens_do_pedido id (gravar_pedido p b) = itens_do_pedido id b.
Proof. reflexivity. Qed.

Lemma soma_dos_itens_gravar (p : Pedido.t) (id : Z) (b : Banco) :
  soma_dos_itens id (gravar_pedido p b) = soma_dos_itens id b.
Proof. reflexivity. Qed.

Lemma item_por_id_apagar (id : Z) (b : Banco) :
  item_por_id id (apagar_item id b) = None.
Proof.
  unfold item_por_id, apagar_item. cbn [itens_pedido].
  induction (itens_pedido b) as [|i l IH]; cbn [find filter]; [reflexivity|].
  destruct (ItemPedido.id i =? id) eqn:E; cbn [negb]; [exact IH|].
  cbn [find]. rewrite E. exact IH.
Qed.

(** The items an order keeps when an item is deleted. *)
Lemma itens_do_pedido_apagar (id_item id_pedido : Z) (b : Banco) :
  itens_do_pedido id_pedido (apagar_item id_item b) =
  filter (fun i => negb (ItemPedido.id i =? id_item)) (itens_do_pedido id_pedido b).
Proof.
  unfold itens_do_pedido, apagar_item. cbn [itens_pedido].
  induction (itens_pedido b) as [|i l IH]; cbn [filter]; [reflexivity|].
  destruct (ItemPedido.id i =? id_item) eqn:E1;
    destruct (ItemPedido.pedido i =? id_pedido) eqn:E2;
    cbn [negb filter]; rewrite ?E1, ?E2; cbn [negb]; rewrite IH; reflexivity.
Qed.

Lemma maior_id_app (ids : list Z) (y : Z) :
  fold_right Z.max 0 (ids ++ [y]) = Z.max (fold_right Z.max 0 ids) (Z.max y 0).
Proof.
  induction ids as [|x ids IH]; cbn [app fold_right]; [lia|].
  rewrite IH. lia.
Qed.

Lemma maior_id_nao_negativo (ids : list Z) : 0 <= fold_right Z.max 0 ids.
Proof. induction ids as [|x ids IH]; cbn [fold_right]; lia. Qed.

(** The key after a fresh key is the next integer. *)
Lemma proximo_id_seguinte (ids : list Z) :
  proximo_id (ids ++ [proximo_id ids]) = proximo_id ids + 1.
Proof.
  unfold proximo_id. rewrite maior_id_app.
  pose proof (maior_id_nao_negativo ids). lia.
Qed.

Lemma item_por_id_novo (b : Banco) :
  item_por_id (proximo_id (map ItemPedido.id (itens_pedido b))) b = None.
Proof.
  unfold item_por_id.
  destruct (find _ (itens_pedido b)) as [i|] eqn:E; [|reflexivity].
  apply find_some in E. destruct E as [Hin Heq]. exfalso.
  apply (proximo_id_novo (map ItemPedido.id (itens_pedido b))).
  apply in_map_iff. exists i. split; [lia | exact Hin].
Qed.

Lemma itens_do_pedido_inserir_item (novo : Z -> ItemPedido.t) (k : Z) (b : Banco) :
  itens_do_pedido k (inserir_item novo b)
  = (itens_do_pedido k b
     ++ filter (fun i => ItemPedido.pedido i =? k)
          [novo (proximo_id (map ItemPedido.id (itens_pedido b)))])%list.
Proof. unfold itens_do_pedido, inserir_item. cbn [itens_pedido]. apply filter_app. Qed.

(** Under referential integrity no item belongs to the order a new key
    would name. *)
Lemma itens_do_pedido_sem_itens (b : Banco) :
  integridade b -> itens_do_pedido (proximo_id (map Pedido.id (pedidos b))) b = [].
Proof.
  intros Hint. unfold itens_do_pedido.
  assert (Hall : forall i, In i (itens_pedido b) ->
            (ItemPedido.pedido i =? proximo_id (map Pedido.id (pedidos b))) = false).
  { intros i Hi. apply Hint in Hi. apply proximo_id_maior in Hi. lia. }
  induction (itens_pedido b) as [|i l IH]; cbn [filter]; [reflexivity|].
  rewrite (Hall i) by (left; reflexivity).
  apply IH. intros j Hj. apply Hall. right. exact Hj.
Qed.

Lemma gravar_pedido_idem (p : Pedido.t) (b : Banco) :
  gravar_pedido p (gravar_pedido p b) = gravar_pedido p b.
Proof.
  unfold gravar_pedido. cbn [usuarios pedidos itens_pedido]. f_equal.
  rewrite map_map. apply map_ext. intros q.
  destruct (Pedido.id q =? Pedido.id p) eqn:E; [|rewrite E; reflexivity].
  rewrite Z.eqb_refl. reflexivity.
Qed.

(** What a successful status change does, for either handler. *)
Lemma mudanca_de_status (s : string) (id_pedido : Z) (usuario : Usuario.t)
  (b : Banco) (p0 : Pedido.t) :
  pedido_por_id id_pedido b = Some p0 ->
  let p := Pedido.com_status p0 s in
  let b' := gravar_pedido p b in
  pedido_por_id id_pedido b' = Some p
  /\ Pedido.com_status p s = p
  /\ sem_autorizacao usuario p = sem_autorizacao usuario p0
  /\ gravar_pedido p b' = b'
  /\ (forall k, k <> id_pedido -> pedido_por_id k b' = pedido_por_id k b).
Proof.
  intros Hp p b'. pose proof (pedido_por_id_some _ _ _ Hp) as [_ Hid].
  assert (Hn : Pedido.id p = id_pedido) by exact Hid.
  split.
  { unfold b'. rewrite <- Hn at 1. apply pedido_por_id_gravar with (q := p0).
    rewrite Hn. exact Hp. }
  split; [reflexivity|]. split; [reflexivity|].
  split; [apply gravar_pedido_idem|].
  intros k Hk. apply pedido_por_id_gravar_outro. rewrite Hn. exact Hk.
Qed.

(** ** Referential integrity is an invariant *)

Lemma integridade_inserir_pedido (novo : Z -> Pedido.t) (b : Banco) :
  integridade b -> integridade (inserir_pedido novo b).
Proof.
  unfold integridade, inserir_pedido. cbn [pedidos itens_pedido].
  intros H i Hi. rewrite map_app. apply in_or_app. left. apply H, Hi.
Qed.

Lemma integridade_gravar_pedido (p : Pedido.t) (b : Banco) :
  integridade b -> integridade (gravar_pedido p b).
Proof.
  unfold integridade. intros H i Hi. rewrite ids_gravar_pedido. apply H, Hi.
Qed.

Lemma integridade_inserir_item (novo : Z -> ItemPedido.t) (b : Banco) :
  (forall id, In (ItemPedido.pedido (novo id)) (map Pedido.id (pedidos b))) ->
  integridade b -> integridade (inserir_item novo b).
Proof.
  unfold integridade, inserir_item. cbn [pedidos itens_pedido].
  intros Hnovo H i Hi. apply in_app_or in Hi. destruct Hi as [Hi | [<- | []]].
  - apply H, Hi.
  - apply Hnovo.
Qed.

Lemma integridade_apagar_item (id : Z) (b : Banco) :
  integridade b -> integridade (apagar_item id b).
Proof.
  unfold integridade, apagar_item. cbn [pedidos itens_pedido].
  intros H i Hi. apply filter_In in Hi. apply H, Hi.
Qed.

Lemma executar_fmap {A B} (f : A -> B) (m : Sessao A) (b : Banco) :
  executar (fmap f m) b =
  (match fst (executar m b) with inl e => inl e | inr a => inr (f a) end,
   snd (executar m b)).
Proof.
  unfold executar, fmap, bind, ret.
  destruct (m _) as [[e|a] s]; reflexivity.
Qed.

Lemma integridade_pedir (rota : RotaPedido) (usuario : Usuario.t) (b : Banco) :
  integridade b -> integridade (snd (pedir rota usuario b)).
Proof.
  intros H. unfold pedir.
  destruct rota as [ps|id| |id s|id|id|id| ]; cbn [order_router];
    rewrite executar_fmap; cbn [snd].
  - rewrite executar_criar_pedido.
    destruct (cabe_em_int64 (ps_usuario ps)); [|exact H].
    apply integridade_inserir_pedido, H.
  - rewrite executar_cancelar_pedido.
    destruct (pedido_por_id id b) as [p|]; [|exact H].
    destruct (sem_autorizacao usuario p); [exact H|].
    apply integridade_gravar_pedido, H.
  - unfold executar, listar_pedidos, raise, ler.
    destruct (negb (Usuario.admin usuario)); exact H.
  - rewrite executar_adicionar_item_pedido.
    destruct (pedido_por_id id b) as [p|] eqn:E; [|exact H].
    destruct (sem_autorizacao usuario p); [exact H|].
    cbn [snd]. unfold banco_apos_adicionar.
    apply integridade_gravar_pedido, integridade_inserir_item; [|exact H].
    intros k. cbn [ItemPedido.init ItemPedido.pedido].
    apply pedido_por_id_some in E. destruct E as [Hin <-].
    apply in_map, Hin.
  - rewrite executar_remover_item_pedido.
    destruct (item_por_id id b) as [i|]; [|exact H].
    destruct (pedido_por_id id b) as [p|]; [|exact H].
    destruct (sem_autorizacao usuario p); [exact H|].
    cbn [snd]. unfold banco_apos_remover.
    apply integridade_gravar_pedido, integridade_apagar_item, H.
  - rewrite executar_finalizar_pedido.
    destruct (pedido_por_id id b) as [p|]; [|exact H].
    destruct (sem_autorizacao usuario p); [exact H|].
    apply integridade_gravar_pedido, H.
  - rewrite executar_visualizar_pedido.
    destruct (pedido_por_id id b) as [p|]; [|exact H].
    destruct (sem_autorizacao usuario p); exact H.
  - exact H.
Qed.

Lemma executar_criar_conta (bcrypt_context : CryptContext)
  (usuario_schema : UsuarioSchema) (sal : string) (b : Banco) :
  executar (criar_conta bcrypt_context usuario_schema sal) b =
  match usuario_por_email (us_email usuario_schema) b with
  | Some _ => (inl DuplicateEmail, b)
  | None =>
      (inr ("Email " ++ us_email usuario_schema ++ " Cadastrado Com Sucesso!")%string,
       inserir_usuario
         (fun id =>
            Usuario.Build id (us_nome usuario_schema) (us_email usuario_schema)
              (hash bcrypt_context sal (us_senha usuario_schema))
              (us_ativo usuario_schema) (us_admin usuario_schema)) b)
  end.
Proof.
  unfold criar_conta. desdobrar.
  destruct (usuario_por_email (us_email usuario_schema) b); reflexivity.
Qed.

Lemma integridade_criar_conta (bcrypt_context : CryptContext)
  (usuario_schema : UsuarioSchema) (sal : string) (b : Banco) :
  integridade b ->
  integridade (snd (executar (criar_conta bcrypt_context usuario_schema sal) b)).
Proof.
  intros H. rewrite executar_criar_conta.
  destruct (usuario_por_email (us_email usuario_schema) b); exact H.
Qed.

(** In every database the service can reach, each item belongs to a stored
    order. *)
Lemma alcancavel_integridade (bcrypt_context : CryptContext) (b : Banco) :
  alcancavel bcrypt_context b -> integridade b.
Proof.
  induction 1 as [|b usuario_schema sal _ IH|b rota usuario _ IH _].
  - intros i [].
  - apply integridade_criar_conta, IH.
  - apply integridade_pedir, IH.
Qed.

(** ** The sample databases are reachable *)

Lemma banco_contas_alcancavel : alcancavel bcrypt_exemplo banco_contas.
Proof. unfold banco_contas. do 2 apply alc_criar_conta. apply alc_inicio. Qed.

Lemma exemplos_alcancaveis :
  alcancavel bcrypt_exemplo banco_um_item
  /\ alcancavel bcrypt_exemplo banco_dois_itens
  /\ alcancavel bcrypt_exemplo banco_dois_pedidos
  /\ alcancavel bcrypt_exemplo banco_com_inativo.
Proof.
  repeat split.
  - unfold banco_um_item. do 2 ana_pede. apply banco_contas_alcancavel.
  - unfold banco_dois_itens. do 3 ana_pede. apply banco_contas_alcancavel.
  - unfold banco_dois_pedidos. do 3 ana_pede. apply banco_contas_alcancavel.
  - unfold banco_com_inativo. apply alc_criar_conta, alc_inicio.
Qed.

(** ** The worked scenario *)

(** The decimal literals of the scenario, as binary64 values. *)
Lemma literais_do_cenario :
  preco_9_90 = S754_finite false 5573204538870989 (-49)
  /\ preco_5_00 = S754_finite false 5629499534213120 (-50)
  /\ total_19_80 = S754_finite false 5573204538870989 (-48)
  /\ total_24_80 = S754_finite false 6980579422424269 (-48).
Proof. repeat split; vm_compute; reflexivity. Qed.

(** On a ledger with no orders and no items, whatever the user table,
    the scenario run by the owner (user 5) or by an administrator answers
    the totals 19.80 and 24.80 for the two additions; the removal of the
    first item answers a remaining item count of 1 and an order whose
    total is 5.00, which is also the total the order has in the database
    afterwards: there the new order and its first item both get the
    id 1. *)
Lemma cenario_em_banco_sem_pedidos :
  forall (usuario : Usuario.t) (contas : list Usuario.t)
         (sabor1 tamanho1 sabor2 tamanho2 : string),
    Usuario.admin usuario = true \/ Usuario.id usuario = 5 ->
    cenario usuario sabor1 tamanho1 sabor2 tamanho2
      {| usuarios := contas; pedidos := []; itens_pedido := [] |}
    = Some {| apos_primeiro_item := total_19_80;
              apos_segundo_item := total_24_80;
              itens_restantes := 1;
              total_respondido := total_5_00;
              total_persistido := Some total_5_00 |}.
Proof.
  intros [id nome email senha ativo admin] contas s1 t1 s2 t2 H.
  cbn [Usuario.admin Usuario.id] in H.
  destruct H as [-> | ->].
  - vm_compute. reflexivity.
  - destruct admin; vm_compute; reflexivity.
Qed.

(** C1.  Eva, user 5 and no administrator, has already opened one order
    (order 1, still empty) in a database the service reaches.  She runs
    the scenario: the new order is order 2, the two additions answer the
    totals 19.80 and 24.80, and the first item gets the id 1.  Its removal
    fetches order 1, her older order, in place of the item's parent: it
    answers a remaining item count of 0 and the total 0, not 1 and 5.00,
    and the scenario's order keeps the total 24.80 in the database while
    it holds a single item of 5.00. *)
Theorem C1_cenario_com_pedido_anterior :
  forall sabor1 tamanho1 sabor2 tamanho2 : string,
    alcancavel bcrypt_exemplo banco_pedido_de_eva
    /\ In eva (usuarios banco_pedido_de_eva)
    /\ pedidos banco_pedido_de_eva
       = [ {| Pedido.id := 1; Pedido.status := "PENDENTE";
              Pedido.usuario := 5; Pedido.preco := PyFloat.of_int 0 |} ]
    /\ itens_pedido banco_pedido_de_eva = []
    /\ cenario eva sabor1 tamanho1 sabor2 tamanho2 banco_pedido_de_eva
       = Some {| apos_primeiro_item := total_19_80;
                 apos_segundo_item := total_24_80;
                 itens_restantes := 0;
                 total_respondido := PyFloat.of_int 0;
                 total_persistido := Some total_24_80 |}
    /\ exists b1 b2 b3 b4 pedido,
         pedir (CriarPedido {| ps_usuario := 5 |}) eva banco_pedido_de_eva
         = (inr (PedidoCriado 2), b1)
         /\ pedir (AdicionarItem 2 (mkItemPedidoSchema 2 sabor1 tamanho1 preco_9_90))
              eva b1 = (inr (ItemCriado 1 total_19_80), b2)
         /\ pedir (AdicionarItem 2 (mkItemPedidoSchema 1 sabor2 tamanho2 preco_5_00))
              eva b2 = (inr (ItemCriado 2 total_24_80), b3)
         /\ pedir (RemoverItem 1) eva b3 = (inr (ItemRemovido 0 pedido), b4)
         /\ Pedido.id pedido = 1
         /\ itens_do_pedido 2 b4
            = [ItemPedido.init 1 sabor2 tamanho2 preco_5_00 2 2]
         /\ soma_dos_itens 2 b4 = total_5_00
         /\ option_map Pedido.preco (pedido_por_id 2 b4) = Some total_24_80.
Proof.
  intros s1 t1 s2 t2.
  assert (Heva : In eva (usuarios banco_cinco_contas))
    by (vm_compute; do 4 right; left; reflexivity).
  split.
  { unfold banco_pedido_de_eva. apply alc_pedir; [|exact Heva].
    unfold banco_cinco_contas. do 3 apply alc_criar_conta.
    apply banco_contas_alcancavel. }
  split; [exact Heva|].
  split; [vm_compute; reflexivity|].
  split; [vm_compute; reflexivity|].
  split; [vm_compute; reflexivity|].
  do 5 eexists.
  split; [vm_compute; reflexivity|].
  split; [vm_compute; reflexivity|].
  split; [vm_compute; reflexivity|].
  split; [vm_compute; reflexivity|].
  split; [reflexivity|].
  split; [vm_compute; reflexivity|].
  split; vm_compute; reflexivity.
Qed.

(** One successful addition, in terms of what the order held before. *)
Lemma adicionar_item_passo (n : Z) (s : ItemPedidoSchema) (usuario : Usuario.t)
  (b : Banco) (p : Pedido.t) (k : Z) (l : list ItemPedido.t) :
  pedido_por_id n b = Some p ->
  sem_autorizacao usuario p = false ->
  proximo_id (map ItemPedido.id (itens_pedido b)) = k ->
  itens_do_pedido n b = l ->
  let item :=
    ItemPedido.init (is_quantidade s) (is_sabor s) (is_tamanho s)
      (is_preco_unitario s) n k in
  let total := PyFloat.sum (map ItemPedido.subtotal (l ++ [item])) in
  exists b',
    executar (adicionar_item_pedido n s usuario) b = (inr (k, total), b')
    /\ pedido_por_id n b' = Some (Pedido.com_preco p total)
    /\ itens_pedido b' = (itens_pedido b ++ [item])%list
    /\ itens_do_pedido n b' = (l ++ [item])%list.
Proof.
  intros Hp Haut <- <- item total.
  pose proof (pedido_por_id_some _ _ _ Hp) as [_ Hid].
  assert (Hitens : itens_do_pedido n
                     (inserir_item
                        (ItemPedido.init (is_quantidade s) (is_sabor s) (is_tamanho s)
                           (is_preco_unitario s) n) b)
                   = (itens_do_pedido n b ++ [item])%list).
  { rewrite itens_do_pedido_inserir_item.
    cbn [filter ItemPedido.init ItemPedido.pedido]. rewrite Z.eqb_refl. reflexivity. }
  rewrite executar_adicionar_item_pedido, Hp, Haut.
  unfold banco_apos_adicionar, soma_dos_itens. cbv zeta. rewrite Hid, Hitens.
  eexists. split; [reflexivity|].
  split; [|split; [reflexivity | exact Hitens]].
  rewrite <- Hid at 1.
  change (Pedido.id p) with (Pedido.id (Pedido.com_preco p total)) at 1.
  apply pedido_por_id_gravar with (q := p).
  cbn [Pedido.com_preco Pedido.id]. rewrite Hid. exact Hp.
Qed.

(** The scenario has the same outcome on every database with referential
    integrity in which the next order id and the next item id coincide:
    there the first item added gets the id of the new order, which is the
    order [remover_item_pedido] fetches. *)
Lemma cenario_em_banco_alinhado (usuario : Usuario.t)
  (sabor1 tamanho1 sabor2 tamanho2 : string) (b : Banco) :
  Usuario.admin usuario = true \/ Usuario.id usuario = 5 ->
  integridade b ->
  proximo_id (map ItemPedido.id (itens_pedido b))
  = proximo_id (map Pedido.id (pedidos b)) ->
  cenario usuario sabor1 tamanho1 sabor2 tamanho2 b
  = Some {| apos_primeiro_item := total_19_80;
            apos_segundo_item := total_24_80;
            itens_restantes := 1;
            total_respondido := total_5_00;
            total_persistido := Some total_5_00 |}.
Proof.
  intros Hu Hint Hids.
  pose proof (itens_do_pedido_sem_itens b Hint) as Hvazio.
  pose proof (item_por_id_novo b) as Hitem.
  pose proof (pedido_por_id_none _ b (proximo_id_novo (map Pedido.id (pedidos b))))
    as Hped.
  pose proof (proximo_id_seguinte (map ItemPedido.id (itens_pedido b))) as Hseg.
  rewrite Hids in Hitem, Hseg.
  remember (proximo_id (map Pedido.id (pedidos b))) as n eqn:Hn.
  assert (Haut : forall p, Pedido.usuario p = 5 -> sem_autorizacao usuario p = false).
  { intros p Hp. unfold sem_autorizacao. rewrite Hp.
    destruct Hu as [-> | ->]; [reflexivity|]. rewrite Z.eqb_refl.
    destruct (Usuario.admin usuario); reflexivity. }
  unfold cenario, pedir. cbn [order_router].
  rewrite executar_fmap, executar_criar_pedido.
  cbn [fst snd ps_usuario]. change (cabe_em_int64 5) with true. cbv iota.
  cbn [fst snd]. rewrite <- Hn.
  set (p0 := Pedido.Build n "PENDENTE" 5 (PyFloat.of_int 0)).
  set (b1 := inserir_pedido (Pedido.novo 5) b).
  assert (Hp1 : pedido_por_id n b1 = Some p0).
  { unfold pedido_por_id, b1, inserir_pedido in *. cbn [pedidos].
    rewrite find_app_none by exact Hped. cbn [find Pedido.novo Pedido.init Pedido.id].
    rewrite <- Hn, Z.eqb_refl. reflexivity. }
  set (it1 := ItemPedido.init 2 sabor1 tamanho1 preco_9_90 n n).
  destruct (adicionar_item_passo n (mkItemPedidoSchema 2 sabor1 tamanho1 preco_9_90)
              usuario b1 p0 n [] Hp1 (Haut p0 eq_refl) Hids Hvazio)
    as [b2 [Hr2 [Hp2 [Hi2 Hd2]]]].
  cbn [is_quantidade is_sabor is_tamanho is_preco_unitario app] in Hr2, Hp2, Hi2, Hd2.
  fold it1 in Hr2, Hp2, Hi2, Hd2.
  replace (PyFloat.sum (map ItemPedido.subtotal [it1])) with total_19_80 in Hr2, Hp2
    by (vm_compute; reflexivity).
  rewrite executar_fmap, Hr2. cbn [fst snd].
  set (p1 := Pedido.com_preco p0 total_19_80) in *.
  set (it2 := ItemPedido.init 1 sabor2 tamanho2 preco_5_00 n (n + 1)).
  assert (Hk2 : proximo_id (map ItemPedido.id (itens_pedido b2)) = n + 1).
  { rewrite Hi2, map_app. exact Hseg. }
  destruct (adicionar_item_passo n (mkItemPedidoSchema 1 sabor2 tamanho2 preco_5_00)
              usuario b2 p1 (n + 1) [it1] Hp2 (Haut p1 eq_refl) Hk2 Hd2)
    as [b3 [Hr3 [Hp3 [Hi3 Hd3]]]].
  cbn [is_quantidade is_sabor is_tamanho is_preco_unitario app] in Hr3, Hp3, Hi3, Hd3.
  fold it2 in Hr3, Hp3, Hi3, Hd3.
  replace (PyFloat.sum (map ItemPedido.subtotal [it1; it2])) with total_24_80 in Hr3, Hp3
    by (vm_compute; reflexivity).
  rewrite executar_fmap, Hr3. cbn [fst snd].
  set (p2 := Pedido.com_preco p1 total_24_80) in *.
  assert (Hit : item_por_id n b3 = Some it1).
  { unfold item_por_id in *. rewrite Hi3, Hi2, <- app_assoc.
    rewrite find_app_none by exact Hitem.
    cbn [app find it1 ItemPedido.init ItemPedido.id]. rewrite Z.eqb_refl. reflexivity. }
  rewrite executar_fmap, executar_remover_item_pedido, Hit, Hp3, Haut by reflexivity.
  unfold banco_apos_remover, soma_dos_itens. cbv zeta.
  cbn [fst snd it1 ItemPedido.init ItemPedido.id p2 p1 p0 Pedido.com_preco Pedido.id].
  rewrite itens_do_pedido_gravar, itens_do_pedido_apagar, Hd3.
  cbn [filter it1 it2 ItemPedido.init ItemPedido.id]. rewrite Z.eqb_refl.
  assert ((n + 1 =? n) = false) as -> by lia.
  cbn [negb List.length].
  replace (PyFloat.sum (map ItemPedido.subtotal [it2])) with total_5_00
    by (vm_compute; reflexivity).
  set (p3 := Pedido.com_preco p2 total_5_00).
  assert (Hp4 : pedido_por_id n (gravar_pedido p3 (apagar_item n b3)) = Some p3).
  { change n with (Pedido.id p3) at 1.
    apply pedido_por_id_gravar with (q := p2). exact Hp3. }
  rewrite Hp4. reflexivity.
Qed.

(** On a database that already holds an order the ids do not coincide:
    the new order is 2 and its first item is 1, so the removal consults
    order 1.  Eva (user 5) is refused, since order 1 is Ana's; for an
    administrator the removal answers order 1, and the scenario's order
    keeps the total 24.80. *)
Lemma cenario_em_banco_desalinhado :
  cenario eva "Calabresa" "Grande" "Mussarela" "Media" banco_pedido_de_ana = None
  /\ cenario rui_admin "Calabresa" "Grande" "Mussarela" "Media" banco_pedido_de_ana
     = Some {| apos_primeiro_item := total_19_80;
               apos_segundo_item := total_24_80;
               itens_restantes := 0;
               total_respondido := PyFloat.of_int 0;
               total_persistido := Some total_24_80 |}.
Proof. split; vm_compute; reflexivity. Qed.

(** ** Where the total is written *)

(** Creating, cancelling, finalizing, viewing and listing leave the total
    of every stored order as it was: only the recomputation of
    [calcular_preco], in the two item routes, writes it. *)
Lemma total_so_muda_nas_rotas_de_item (rota : RotaPedido) (usuario : Usuario.t)
  (b : Banco) (id : Z) (p : Pedido.t) :
  (forall k s, rota <> AdicionarItem k s) ->
  (forall k, rota <> RemoverItem k) ->
  pedido_por_id id b = Some p ->
  option_map Pedido.preco (pedido_por_id id (snd (pedir rota usuario b)))
  = Some (Pedido.preco p).
Proof.
  intros Hadd Hrem Hp. unfold pedir.
  assert (Hstatus : forall q s,
             pedido_por_id (Pedido.id q) b = Some q ->
             option_map Pedido.preco
               (pedido_por_id id (gravar_pedido (Pedido.com_status q s) b))
             = Some (Pedido.preco p)).
  { intros q s Hq. destruct (Z.eq_dec id (Pedido.id q)) as [-> | Hne].
    - change (Pedido.id q) with (Pedido.id (Pedido.com_status q s)) at 1.
      rewrite pedido_por_id_gravar with (q := q) by exact Hq.
      rewrite Hq in Hp. injection Hp as ->. reflexivity.
    - rewrite pedido_por_id_gravar_outro by exact Hne. rewrite Hp. reflexivity. }
  assert (Hmesmo : forall k q, pedido_por_id k b = Some q ->
                               pedido_por_id (Pedido.id q) b = Some q).
  { intros k q Hq. pose proof (pedido_por_id_some _ _ _ Hq) as [_ ->]. exact Hq. }
  destruct rota as [ps|k| |k s|k|k|k| ]; cbn [order_router];
    rewrite executar_fmap; cbn [snd].
  - rewrite executar_criar_pedido.
    destruct (cabe_em_int64 (ps_usuario ps)); cbn [snd];
      [|rewrite Hp; reflexivity].
    unfold pedido_por_id, inserir_pedido in *. cbn [pedidos].
    rewrite find_app_some with (a := p) by exact Hp. reflexivity.
  - rewrite executar_cancelar_pedido.
    destruct (pedido_por_id k b) as [q|] eqn:Eq;
      [destruct (sem_autorizacao usuario q)|]; cbn [snd];
      try (rewrite Hp; reflexivity).
    apply Hstatus, (Hmesmo k), Eq.
  - unfold executar, listar_pedidos, raise, ler.
    destruct (negb (Usuario.admin usuario)); cbn [snd persistido];
      rewrite Hp; reflexivity.
  - exfalso. exact (Hadd k s eq_refl).
  - exfalso. exact (Hrem k eq_refl).
  - rewrite executar_finalizar_pedido.
    destruct (pedido_por_id k b) as [q|] eqn:Eq;
      [destruct (sem_autorizacao usuario q)|]; cbn [snd];
      try (rewrite Hp; reflexivity).
    apply Hstatus, (Hmesmo k), Eq.
  - rewrite executar_visualizar_pedido.
    destruct (pedido_por_id k b) as [q|];
      [destruct (sem_autorizacao usuario q)|]; cbn [snd];
      rewrite Hp; reflexivity.
  - cbn. rewrite Hp. reflexivity.
Qed.

(** ** Removing an item *)

(** C9.  [remover_item_pedido] fetches the order with the id of the item.
    A successful removal was authorized against the order whose id is the
    item id and answers that order, its total recomputed over the items it
    keeps; and in every database where item [k] exists and order [k] does
    not, the request of any caller ends in the [AttributeError] of a
    missing order, which is neither NotFound nor Unauthorized: at the
    owner check ([pedido.usuario]) for a caller who is not an
    administrator, at [pedido.calcular_preco()] for an administrator.
    Nothing is committed. *)
Theorem C9_remover_consulta_pedido_pelo_id_do_item :
  forall (k : Z) (usuario : Usuario.t) (b : Banco),
    (forall n pedido b',
        pedir (RemoverItem k) usuario b = (inr (ItemRemovido n pedido), b') ->
        exists consultado,
          pedido_por_id k b = Some consultado
          /\ can_access usuario consultado = true
          /\ pedido = Pedido.com_preco consultado (soma_dos_itens k (apagar_item k b))
          /\ n = List.length (itens_do_pedido k b'))
    /\ (forall item,
        item_por_id k b = Some item ->
        pedido_por_id k b = None ->
        pedir (RemoverItem k) usuario b
        = (inl (AttributeError
                  (if Usuario.admin usuario then "calcular_preco" else "usuario")), b)
        /\ ~ NotFound (AttributeError
                         (if Usuario.admin usuario then "calcular_preco" else "usuario"))
        /\ AttributeError (if Usuario.admin usuario then "calcular_preco" else "usuario")
           <> Unauthorized).
Proof.
  intros k usuario b. unfold pedir; cbn [order_router].
  rewrite executar_fmap, executar_remover_item_pedido. split.
  - intros n pedido b'.
    destruct (item_por_id k b) as [item|] eqn:Ei; [|discriminate].
    destruct (pedido_por_id k b) as [consultado|] eqn:Ep; [|discriminate].
    rewrite sem_autorizacao_can_access.
    destruct (can_access usuario consultado) eqn:Ea; cbn [negb fst snd];
      [|discriminate].
    apply item_por_id_some in Ei. destruct Ei as [_ ->].
    apply pedido_por_id_some in Ep. destruct Ep as [_ ->].
    intros H. injection H as <- <- <-.
    exists consultado. auto.
  - intros item -> ->. cbn [fst snd]. split; [reflexivity|].
    split; [|discriminate].
    unfold NotFound. intros [H | [H | H]]; discriminate H.
Qed.

(** Order 1 holds items 1 and 2 and there is no order 2: its owner cannot
    remove item 2.  And where item 1 belongs to order 2, removing it
    consults and answers order 1. *)
Lemma C9_remover_consulta_pedido_pelo_id_do_item_witness :
  (item_por_id 2 banco_dois_itens
   = Some (ItemPedido.init 1 "Mussarela" "Grande" preco_5_00 1 2)
   /\ pedido_por_id 2 banco_dois_itens = None
   /\ pedir (RemoverItem 2) ana banco_dois_itens
      = (inl (AttributeError "usuario"), banco_dois_itens))
  /\ (option_map ItemPedido.pedido (item_por_id 1 banco_dois_pedidos) = Some 2
      /\ exists consultado,
           pedido_por_id 1 banco_dois_pedidos = Some consultado
           /\ can_access ana consultado = true
           /\ {| Pedido.id := 1; Pedido.status := "PENDENTE";
                 Pedido.usuario := 1; Pedido.preco := PyFloat.of_int 0 |}
              = Pedido.com_preco consultado
                  (soma_dos_itens 1 (apagar_item 1 banco_dois_pedidos))
           /\ 0%nat = List.length
                        (itens_do_pedido 1
                           (snd (pedir (RemoverItem 1) ana banco_dois_pedidos)))).
Proof.
  assert (Hi : item_por_id 2 banco_dois_itens
               = Some (ItemPedido.init 1 "Mussarela" "Grande" preco_5_00 1 2))
    by (vm_compute; reflexivity).
  assert (Hp : pedido_por_id 2 banco_dois_itens = None) by (vm_compute; reflexivity).
  assert (Hr : pedir (RemoverItem 1) ana banco_dois_pedidos
               = (inr (ItemRemovido 0
                         {| Pedido.id := 1; Pedido.status := "PENDENTE";
                            Pedido.usuario := 1; Pedido.preco := PyFloat.of_int 0 |}),
                  snd (pedir (RemoverItem 1) ana banco_dois_pedidos)))
    by (vm_compute; reflexivity).
  split.
  - split; [exact Hi | split; [exact Hp|]].
    exact (proj1 (proj2 (C9_remover_consulta_pedido_pelo_id_do_item 2 ana banco_dois_itens)
                   _ Hi Hp)).
  - split; [vm_compute; reflexivity|].
    destruct (proj1 (C9_remover_consulta_pedido_pelo_id_do_item 1 ana banco_dois_pedidos)
                _ _ _ Hr) as [consultado [H1 [H2 [H3 H4]]]].
    exists consultado. exact (conj H1 (conj H2 (conj H3 H4))).
Defined.

(** C2.  Ana owns orders 1 and 2; order 2 holds item 1 (one pizza at
    5.00) and has total 5.00.  Ana removes item 1: the request succeeds,
    answering order 1 with 0 items, and leaves order 2 in the database
    with no items and the total 5.00, which is not the sum over its
    items. *)
Theorem C2_remocao_deixa_total_desatualizado :
  exists b',
    pedir (RemoverItem 1) ana banco_dois_pedidos
    = (inr (ItemRemovido 0 {| Pedido.id := 1; Pedido.status := "PENDENTE";
                              Pedido.usuario := 1;
                              Pedido.preco := PyFloat.of_int 0 |}), b')
    /\ pedido_por_id 2 b'
       = Some {| Pedido.id := 2; Pedido.status := "PENDENTE";
                 Pedido.usuario := 1; Pedido.preco := total_5_00 |}
    /\ itens_do_pedido 2 b' = []
    /\ ~ total_derivado b' {| Pedido.id := 2; Pedido.status := "PENDENTE";
                              Pedido.usuario := 1; Pedido.preco := total_5_00 |}.
Proof.
  eexists. split; [vm_compute; reflexivity|].
  split; [vm_compute; reflexivity|].
  split; [vm_compute; reflexivity|].
  unfold total_derivado. vm_compute. discriminate.
Qed.

(** After a successful [adicionar_item_pedido] the order has, in the
    database, the total derived from its items, and that total is the one
    answered. *)
Lemma adicionar_item_total_derivado (id_pedido : Z) (s : ItemPedidoSchema)
  (usuario : Usuario.t) (b : Banco) (resposta : Resposta) (b' : Banco) :
  pedir (AdicionarItem id_pedido s) usuario b = (inr resposta, b') ->
  exists p,
    pedido_por_id id_pedido b' = Some p
    /\ total_derivado b' p
    /\ resposta = ItemCriado (proximo_id (map ItemPedido.id (itens_pedido b)))
                    (Pedido.preco p).
Proof.
  unfold pedir; cbn [order_router].
  rewrite executar_fmap, executar_adicionar_item_pedido.
  destruct (pedido_por_id id_pedido b) as [pedido|] eqn:Ep; [|discriminate].
  destruct (sem_autorizacao usuario pedido); [discriminate|].
  cbn [fst snd]. intros H. injection H as <- <-.
  pose proof (pedido_por_id_some _ _ _ Ep) as [_ Hid].
  unfold banco_apos_adicionar.
  set (b1 := inserir_item _ b).
  exists (Pedido.com_preco pedido (soma_dos_itens (Pedido.id pedido) b1)).
  split; [|split; reflexivity].
  rewrite <- Hid at 1.
  change (Pedido.id pedido) with
    (Pedido.id (Pedido.com_preco pedido (soma_dos_itens (Pedido.id pedido) b1))) at 1.
  apply pedido_por_id_gravar with (q := pedido).
  cbn [Pedido.com_preco Pedido.id]. rewrite Hid. exact Ep.
Qed.




(** ** Existence, then authorization *)

(** A request that passes the two guards has the effect of its
    operation. *)
Lemma operacao_autorizada (op : OperacaoPedido) (id_pedido : Z)
  (usuario : Usuario.t) (pedido : Pedido.t) (b : Banco) :
  pedido_por_id id_pedido b = Some pedido ->
  sem_autorizacao usuario pedido = false ->
  efeito_da_operacao op id_pedido usuario pedido b.
Proof.
  intros Hp Ha. pose proof (pedido_por_id_some _ _ _ Hp) as [_ Hid].
  destruct op as [| |s|]; cbn [efeito_da_operacao].
  - destruct (mudanca_de_status "CANCELADO" id_pedido usuario b pedido Hp)
      as [H1 _].
    eexists. unfold pedir; cbn [order_router].
    rewrite executar_fmap, executar_cancelar_pedido, Hp, Ha. cbn [fst snd].
    split; [reflexivity|]. split; [exact H1 | reflexivity].
  - destruct (mudanca_de_status "FINALIZADO" id_pedido usuario b pedido Hp)
      as [H1 _].
    eexists. unfold pedir; cbn [order_router].
    rewrite executar_fmap, executar_finalizar_pedido, Hp, Ha. cbn [fst snd].
    split; [reflexivity|]. split; [exact H1 | reflexivity].
  - intros _.
    destruct (adicionar_item_passo id_pedido s usuario b pedido _ _ Hp Ha
                eq_refl eq_refl) as [b' [Hr [Hp' [Hi Hd]]]].
    do 3 eexists. exists b'. unfold pedir; cbn [order_router].
    rewrite executar_fmap, Hr. cbn [fst snd].
    split; [reflexivity|].
    split; [apply item_por_id_novo|].
    split.
    { unfold item_por_id. rewrite Hi.
      rewrite find_app_none by apply item_por_id_novo.
      cbn [find ItemPedido.init ItemPedido.id]. rewrite Z.eqb_refl. reflexivity. }
    do 5 (split; [reflexivity|]).
    split; [exact Hd|]. split; [exact Hp'|].
    intros _. split; [reflexivity|].
    unfold soma_dos_itens. rewrite Hd. reflexivity.
  - unfold pedir; cbn [order_router].
    rewrite executar_fmap, executar_visualizar_pedido, Hp, Ha. cbn [fst snd].
    rewrite Hid. reflexivity.
Qed.



(** ** Authentication *)

Lemma executar_autenticar_usuario (bcrypt_context : CryptContext)
  (email senha : string) (b : Banco) :
  executar (autenticar_usuario bcrypt_context email senha) b =
  (inr match usuario_por_email email b with
       | None => PyFalse
       | Some usuario =>
           if verify bcrypt_context senha (Usuario.senha usuario)
           then PyUsuario usuario
           else PyFalse
       end, b).
Proof.
  unfold autenticar_usuario. desdobrar.
  destruct (usuario_por_email email b) as [usuario|]; [|reflexivity].
  destruct (verify bcrypt_context senha (Usuario.senha usuario)); reflexivity.
Qed.

Lemma executar_login (bcrypt_context : CryptContext)
  (assinar : string -> string -> Claims -> string) (config : Config)
  (login_schema : LoginSchema) (agora1 agora2 : Z) (b : Banco) :
  executar (login bcrypt_context assinar config login_schema agora1 agora2) b
  = (match fst (executar (autenticar_usuario bcrypt_context (ls_email login_schema)
                            (ls_senha login_schema)) b) with
     | inl e => inl e
     | inr PyFalse => inl InvalidCredentials
     | inr (PyUsuario usuario) =>
         inr (criar_token assinar config agora1 (Usuario.id usuario)
                (duracao_padrao config),
              criar_token assinar config agora2 (Usuario.id usuario)
                (timedelta_days 7))
     end, b).
Proof.
  unfold login, autenticar_usuario. desdobrar.
  destruct (usuario_por_email (ls_email login_schema) b) as [usuario|]; [|reflexivity].
  destruct (verify bcrypt_context (ls_senha login_schema) (Usuario.senha usuario));
    reflexivity.
Qed.

(** C5.  [autenticar_usuario] returns the same value, [False], when no
    user has the email and when the password does not verify against the
    stored hash, and leaves the database as it was in both runs; [login]
    answers both with the same exception.  When the password verifies it
    returns the user record. *)
Theorem C5_autenticar_nao_distingue_falhas :
  forall (bcrypt_context : CryptContext)
         (assinar : string -> string -> Claims -> string) (config : Config)
         (b : Banco) (email_ausente senha_qualquer email_presente senha : string)
         (usuario : Usuario.t) (agora1 agora2 : Z),
    usuario_por_email email_ausente b = None ->
    usuario_por_email email_presente b = Some usuario ->
    (verify bcrypt_context senha (Usuario.senha usuario) = false ->
     executar (autenticar_usuario bcrypt_context email_ausente senha_qualquer) b
     = (inr PyFalse, b)
     /\ executar (autenticar_usuario bcrypt_context email_presente senha) b
        = (inr PyFalse, b)
     /\ executar (login bcrypt_context assinar config
                    {| ls_email := email_ausente; ls_senha := senha_qualquer |}
                    agora1 agora2) b
        = executar (login bcrypt_context assinar config
                      {| ls_email := email_presente; ls_senha := senha |}
                      agora1 agora2) b)
    /\ (verify bcrypt_context senha (Usuario.senha usuario) = true ->
        executar (autenticar_usuario bcrypt_context email_presente senha) b
        = (inr (PyUsuario usuario), b)).
Proof.
  intros ctx assinar config b e1 s1 e2 s2 u t1 t2 Hnone Hsome.
  rewrite !executar_login, !executar_autenticar_usuario.
  cbn [ls_email ls_senha fst]. rewrite Hnone, Hsome.
  split; intros ->; auto.
Qed.

(** An email nobody has, and Ana's email with a wrong and with the right
    password. *)
Lemma C5_autenticar_nao_distingue_falhas_witness :
  usuario_por_email "ze@pizza.br" banco_contas = None
  /\ usuario_por_email "ana@pizza.br" banco_contas = Some ana
  /\ verify bcrypt_exemplo "errada" (Usuario.senha ana) = false
  /\ verify bcrypt_exemplo "segredo" (Usuario.senha ana) = true
  /\ executar (autenticar_usuario bcrypt_exemplo "ze@pizza.br" "segredo") banco_contas
     = (inr PyFalse, banco_contas)
  /\ executar (autenticar_usuario bcrypt_exemplo "ana@pizza.br" "errada") banco_contas
     = (inr PyFalse, banco_contas)
  /\ executar (autenticar_usuario bcrypt_exemplo "ana@pizza.br" "segredo") banco_contas
     = (inr (PyUsuario ana), banco_contas).
Proof.
  assert (H1 : usuario_por_email "ze@pizza.br" banco_contas = None)
    by (vm_compute; reflexivity).
  assert (H2 : usuario_por_email "ana@pizza.br" banco_contas = Some ana)
    by (vm_compute; reflexivity).
  assert (H3 : verify bcrypt_exemplo "errada" (Usuario.senha ana) = false)
    by (vm_compute; reflexivity).
  assert (H4 : verify bcrypt_exemplo "segredo" (Usuario.senha ana) = true)
    by (vm_compute; reflexivity).
  pose proof (C5_autenticar_nao_distingue_falhas bcrypt_exemplo assinar_exemplo
                config_exemplo banco_contas "ze@pizza.br" "segredo" "ana@pizza.br"
                "errada" ana 0 0 H1 H2) as [Hf _].
  pose proof (C5_autenticar_nao_distingue_falhas bcrypt_exemplo assinar_exemplo
                config_exemplo banco_contas "ze@pizza.br" "segredo" "ana@pizza.br"
                "segredo" ana 0 0 H1 H2) as [_ Hv].
  destruct (Hf H3) as [Ha [Hb _]].
  exact (conj H1 (conj H2 (conj H3 (conj H4 (conj Ha (conj Hb (Hv H4))))))).
Defined.

(** ** Registration *)

Lemma usuario_por_email_none (email : string) (b : Banco) :
  usuario_por_email email b = None <-> registros_com_email email b = 0%nat.
Proof.
  unfold usuario_por_email, registros_com_email.
  induction (usuarios b) as [|u l IH]; cbn [find filter List.length].
  - tauto.
  - destruct (String.eqb (Usuario.email u) email); cbn [List.length].
    + split; discriminate.
    + exact IH.
Qed.

Lemma usuario_por_email_some (email : string) (b : Banco) :
  (exists u, usuario_por_email email b = Some u)
  <-> exists u, In u (usuarios b) /\ Usuario.email u = email.
Proof.
  unfold usuario_por_email. split.
  - intros [u H]. apply find_some in H. destruct H as [Hin Heq].
    exists u. split; [exact Hin | apply String.eqb_eq, Heq].
  - intros [u [Hin Heq]].
    destruct (find _ (usuarios b)) as [v|] eqn:E; [exists v; reflexivity|].
    apply find_none with (x := u) in E; [|exact Hin].
    apply String.eqb_neq in E. contradiction.
Qed.

Lemma registros_com_email_inserir (novo : Z -> Usuario.t) (email : string) (b : Banco) :
  (forall id, Usuario.email (novo id) = email) ->
  registros_com_email email (inserir_usuario novo b)
  = S (registros_com_email email b).
Proof.
  intros H. unfold registros_com_email, inserir_usuario. cbn [usuarios].
  rewrite filter_app, length_app. cbn [filter]. rewrite H, String.eqb_refl.
  cbn [List.length]. lia.
Qed.

(** C6, as the code has it.  [criar_conta] fails with DuplicateEmail
    exactly when some record, active or not, has the email.  When none
    has, the registration succeeds and appends one record, whose password
    column is the output of [bcrypt_context.hash] on the plaintext and
    whose other columns are the name, email and flags of the request; a
    second registration with the same email then fails with
    DuplicateEmail, and the database keeps exactly one record for the
    email. *)
Theorem C6_criar_conta_email_unico :
  forall (bcrypt_context : CryptContext) (usuario_schema : UsuarioSchema)
         (sal : string) (b : Banco),
    (fst (executar (criar_conta bcrypt_context usuario_schema sal) b) = inl DuplicateEmail
     <-> exists u, In u (usuarios b) /\ Usuario.email u = us_email usuario_schema)
    /\ (registros_com_email (us_email usuario_schema) b = 0%nat ->
        exists mensagem b',
          executar (criar_conta bcrypt_context usuario_schema sal) b = (inr mensagem, b')
          /\ usuarios b'
             = (usuarios b
                ++ [Usuario.Build (proximo_id (map Usuario.id (usuarios b)))
                      (us_nome usuario_schema) (us_email usuario_schema)
                      (hash bcrypt_context sal (us_senha usuario_schema))
                      (us_ativo usuario_schema) (us_admin usuario_schema)])%list
          /\ pedidos b' = pedidos b
          /\ itens_pedido b' = itens_pedido b
          /\ registros_com_email (us_email usuario_schema) b' = 1%nat
          /\ forall segundo sal2,
               us_email segundo = us_email usuario_schema ->
               executar (criar_conta bcrypt_context segundo sal2) b'
               = (inl DuplicateEmail, b')).
Proof.
  intros ctx s sal b. rewrite executar_criar_conta. split.
  - rewrite <- usuario_por_email_some.
    destruct (usuario_por_email (us_email s) b) as [u|]; cbn [fst].
    + split; [intros _; exists u; reflexivity | reflexivity].
    + split; [discriminate | intros [u H]; discriminate H].
  - intros H0. pose proof H0 as Hnone. apply usuario_por_email_none in Hnone.
    rewrite Hnone. eexists. eexists. split; [reflexivity|].
    split; [reflexivity|]. split; [reflexivity|]. split; [reflexivity|].
    assert (H1 : registros_com_email (us_email s)
                   (inserir_usuario
                      (fun id => Usuario.Build id (us_nome s) (us_email s)
                                   (hash ctx sal (us_senha s)) (us_ativo s) (us_admin s))
                      b) = 1%nat).
    { rewrite registros_com_email_inserir by reflexivity. rewrite H0. reflexivity. }
    split; [exact H1|].
    intros s2 sal2 Heq. rewrite executar_criar_conta, Heq.
    destruct (usuario_por_email (us_email s) (inserir_usuario _ b)) eqn:E;
      [reflexivity|].
    apply usuario_por_email_none in E. rewrite H1 in E. discriminate E.
Qed.

(** Ana registers on the empty database; a second registration of her
    email fails. *)
Lemma C6_criar_conta_email_unico_witness :
  registros_com_email (us_email conta_ana) banco_vazio = 0%nat
  /\ exists mensagem b',
       executar (criar_conta bcrypt_exemplo conta_ana "s1") banco_vazio = (inr mensagem, b')
       /\ usuarios b' = [ana]
       /\ registros_com_email (us_email conta_ana) b' = 1%nat
       /\ executar (criar_conta bcrypt_exemplo conta_ana "s7") b' = (inl DuplicateEmail, b').
Proof.
  assert (H0 : registros_com_email (us_email conta_ana) banco_vazio = 0%nat)
    by reflexivity.
  split; [exact H0|].
  destruct (proj2 (C6_criar_conta_email_unico bcrypt_exemplo conta_ana "s1" banco_vazio) H0)
    as [mensagem [b' [Hr [Hu [_ [_ [H1 H2]]]]]]].
  exists mensagem, b'.
  exact (conj Hr (conj Hu (conj H1 (H2 conta_ana "s7" eq_refl)))).
Defined.

(** C6 as written does not hold: the only record with Caio's email is
    inactive, and registering the email again fails with DuplicateEmail. *)
Lemma C6_duplicado_como_escrito_falha :
  ~ duplicado_como_escrito bcrypt_exemplo conta_inativa "s4" banco_com_inativo.
Proof.
  intros [H _].
  destruct H as [u [Hin [_ Hativo]]].
  - vm_compute. reflexivity.
  - vm_compute in Hin. destruct Hin as [<- | []]. discriminate Hativo.
Qed.

(** ** Status changes *)

(** C7.  Whatever the status of an existing order, a cancel by an
    administrator or the owner answers the order with status CANCELADO and
    stores it so, and a finalize answers it with status FINALIZADO and
    stores it so; the other columns of the order are kept.  No transition
    is refused. *)
Theorem C7_transicoes_livres :
  forall (id_pedido : Z) (usuario : Usuario.t) (b : Banco) (pedido : Pedido.t),
    pedido_por_id id_pedido b = Some pedido ->
    can_access usuario pedido = true ->
    (exists b',
        pedir (Cancelar id_pedido) usuario b
        = (inr (PedidoCancelado (Pedido.com_status pedido "CANCELADO")), b')
        /\ pedido_por_id id_pedido b' = Some (Pedido.com_status pedido "CANCELADO"))
    /\ (exists b',
        pedir (Finalizar id_pedido) usuario b
        = (inr (PedidoFinalizado (Pedido.com_status pedido "FINALIZADO")), b')
        /\ pedido_por_id id_pedido b' = Some (Pedido.com_status pedido "FINALIZADO")).
Proof.
  intros id_pedido usuario b pedido Hp Hacc.
  assert (Hid : Pedido.id pedido = id_pedido) by (apply pedido_por_id_some in Hp; tauto).
  assert (Hgravar : forall s,
             pedido_por_id id_pedido (gravar_pedido (Pedido.com_status pedido s) b)
             = Some (Pedido.com_status pedido s)).
  { intros s. rewrite <- Hid at 1.
    change (Pedido.id pedido) with (Pedido.id (Pedido.com_status pedido s)).
    apply pedido_por_id_gravar with (q := pedido).
    cbn [Pedido.com_status Pedido.id]. rewrite Hid. exact Hp. }
  unfold pedir; cbn [order_router]. rewrite !executar_fmap.
  rewrite executar_cancelar_pedido, executar_finalizar_pedido, Hp.
  rewrite sem_autorizacao_can_access, Hacc. cbn [negb fst snd].
  split; eexists; (split; [reflexivity | apply Hgravar]).
Qed.

(** An order that is already cancelled is finalized. *)
Lemma C7_transicoes_livres_witness :
  let cancelado := snd (pedir (Cancelar 1) ana banco_um_item) in
  let pedido := {| Pedido.id := 1; Pedido.status := "CANCELADO";
                   Pedido.usuario := 1; Pedido.preco := total_5_00 |} in
  pedido_por_id 1 cancelado = Some pedido
  /\ can_access ana pedido = true
  /\ exists b',
       pedir (Finalizar 1) ana cancelado
       = (inr (PedidoFinalizado (Pedido.com_status pedido "FINALIZADO")), b')
       /\ pedido_por_id 1 b' = Some (Pedido.com_status pedido "FINALIZADO").
Proof.
  intros cancelado pedido.
  assert (Hp : pedido_por_id 1 cancelado = Some pedido) by (vm_compute; reflexivity).
  assert (Hacc : can_access ana pedido = true) by reflexivity.
  split; [exact Hp | split; [exact Hacc|]].
  exact (proj2 (C7_transicoes_livres 1 ana cancelado pedido Hp Hacc)).
Defined.

(** ** Tokens *)

(** [int(str(n)) == n]. *)
Lemma py_int_py_str (n : Z) : py_int (py_str n) = Some n.
Proof.
  unfold py_int, py_str.
  rewrite NilZero.isi.
  - cbn [option_map]. rewrite DecimalZ.of_to. reflexivity.
  - destruct n; cbn; try discriminate.
    intros H. injection H as H. exact (DecimalPos.Unsigned.to_uint_nonnil _ H).
  - destruct n; cbn; try discriminate.
    intros H. injection H as H. exact (DecimalPos.Unsigned.to_uint_nonnil _ H).
Qed.

(** C8.  The token [criar_token] issues at time [t] for a user id and a
    lifetime [L] carries the subject [str(id)], which reads back as the
    id, and the expiration [t + L]; validating it at a time before
    [t + L] yields the user id, and at [t + L] or later fails with
    Expired. *)
Theorem C8_token_expira_em_t_mais_L :
  forall (assinar : string -> string -> Claims -> string) (config : Config)
         (id_usuario L t agora : Z),
    sub (claims (criar_token assinar config t id_usuario L)) = Some (py_str id_usuario)
    /\ py_int (py_str id_usuario) = Some id_usuario
    /\ exp (claims (criar_token assinar config t id_usuario L)) = t + L
    /\ validate assinar config agora (criar_token assinar config t id_usuario L)
       = if agora <? t + L then inr id_usuario else inl Expired.
Proof.
  intros assinar config id_usuario L t agora.
  split; [reflexivity|]. split; [apply py_int_py_str|]. split; [reflexivity|].
  unfold validate, criar_token, jwt_encode. cbn [alg claims assinatura sub exp].
  rewrite !String.eqb_refl. cbn [andb negb].
  destruct (t + L <=? agora) eqn:E1; destruct (agora <? t + L) eqn:E2; try lia.
  - reflexivity.
  - rewrite py_int_py_str. reflexivity.
Qed.

(** ** Order creation *)

(** C10, as the code has it.  [criar_pedido] takes the owner from the
    request body: whoever the authenticated caller is and whatever integer
    [x] of the signed 64-bit range the body carries (nothing relates [x]
    to the caller or to the user table), the request succeeds; it answers
    the id of an order that did not exist before and that the database
    now holds with status PENDENTE, total 0, owner [x] and no items.  For
    an [x] outside that range the request ends in the [OverflowError] of
    the INSERT and the database is as it was. *)
Theorem C10_criar_pedido_dono_em_int64 :
  forall (usuario : Usuario.t) (x : Z) (b : Banco),
    integridade b ->
    (- 2 ^ 63 <= x < 2 ^ 63 ->
     exists (id_pedido : Z) (b' : Banco),
       pedir (CriarPedido {| ps_usuario := x |}) usuario b
       = (inr (PedidoCriado id_pedido), b')
       /\ pedido_por_id id_pedido b = None
       /\ pedido_por_id id_pedido b'
          = Some {| Pedido.id := id_pedido; Pedido.status := "PENDENTE";
                    Pedido.usuario := x; Pedido.preco := PyFloat.of_int 0 |}
       /\ itens_do_pedido id_pedido b' = []
       /\ usuarios b' = usuarios b
       /\ itens_pedido b' = itens_pedido b)
    /\ (x < - 2 ^ 63 \/ 2 ^ 63 <= x ->
        pedir (CriarPedido {| ps_usuario := x |}) usuario b = (inl OverflowError, b)).
Proof.
  intros usuario x b Hint. unfold pedir; cbn [order_router].
  rewrite executar_fmap, executar_criar_pedido. cbn [ps_usuario]. split.
  - intros Hx. assert (cabe_em_int64 x = true) as -> by (unfold cabe_em_int64; lia).
    cbn [fst snd].
    exists (proximo_id (map Pedido.id (pedidos b))).
    exists (inserir_pedido (Pedido.novo x) b).
    assert (Hnone : pedido_por_id (proximo_id (map Pedido.id (pedidos b))) b = None)
      by apply pedido_por_id_none, proximo_id_novo.
    split; [reflexivity|]. split; [exact Hnone|]. split; [|split; [|split]].
    + unfold pedido_por_id, inserir_pedido in *. cbn [pedidos].
      rewrite find_app_none by exact Hnone.
      cbn [find Pedido.novo Pedido.init Pedido.id]. rewrite Z.eqb_refl. reflexivity.
    + exact (itens_do_pedido_sem_itens b Hint).
    + reflexivity.
    + reflexivity.
  - intros Hx. assert (cabe_em_int64 x = false) as -> by (unfold cabe_em_int64; lia).
    reflexivity.
Qed.

(** Bia (user 2) opens an order for the owner id 777, which no user has. *)
Lemma C10_criar_pedido_dono_em_int64_witness :
  integridade banco_dois_itens
  /\ - 2 ^ 63 <= 777 < 2 ^ 63
  /\ exists (id_pedido : Z) (b' : Banco),
      pedir (CriarPedido {| ps_usuario := 777 |}) bia banco_dois_itens
      = (inr (PedidoCriado id_pedido), b')
      /\ pedido_por_id id_pedido banco_dois_itens = None
      /\ pedido_por_id id_pedido b'
         = Some {| Pedido.id := id_pedido; Pedido.status := "PENDENTE";
                   Pedido.usuario := 777; Pedido.preco := PyFloat.of_int 0 |}
      /\ itens_do_pedido id_pedido b' = []
      /\ usuarios b' = usuarios banco_dois_itens
      /\ itens_pedido b' = itens_pedido banco_dois_itens.
Proof.
  assert (H : integridade banco_dois_itens).
  { intros i Hi. vm_compute in Hi. vm_compute.
    destruct Hi as [<- | [<- | []]]; left; reflexivity. }
  assert (Hx : - 2 ^ 63 <= 777 < 2 ^ 63) by lia.
  exact (conj H (conj Hx
           (proj1 (C10_criar_pedido_dono_em_int64 bia 777 _ H) Hx))).
Defined.

(** C10 as written does not hold: for the owner id [2 ^ 63] the request
    of Bia ends in [OverflowError] and no order is created. *)
Lemma C10_criar_pedido_como_escrito_falha :
  ~ criar_pedido_como_escrito bia (2 ^ 63) banco_dois_itens.
Proof.
  intros [id_pedido [b' [H _]]]. vm_compute in H. discriminate H.
Qed.

(** * Further properties of the handlers *)

(** ** What a request leaves alone *)

Lemma executar_listar_pedidos (usuario : Usuario.t) (b : Banco) :
  executar (listar_pedidos usuario) b =
  (if Usuario.admin usuario then inr (pedidos b) else inl Unauthorized, b).
Proof.
  unfold executar, listar_pedidos, raise, ler.
  destruct (Usuario.admin usuario); reflexivity.
Qed.

Lemma executar_listar_pedidos_usuario (usuario : Usuario.t) (b : Banco) :
  executar (listar_pedidos_usuario usuario) b =
  (inr (pedidos_do_usuario (Usuario.id usuario) b), b).
Proof. reflexivity. Qed.

Lemma executar_login_form (bcrypt_context : CryptContext)
  (assinar : string -> string -> Claims -> string) (config : Config)
  (username password : string) (agora : Z) (b : Banco) :
  executar (login_form bcrypt_context assinar config username password agora) b
  = (match fst (executar (autenticar_usuario bcrypt_context username password) b) with
     | inl e => inl e
     | inr PyFalse => inl InvalidCredentials
     | inr (PyUsuario usuario) =>
         inr (criar_token assinar config agora (Usuario.id usuario)
                (duracao_padrao config))
     end, b).
Proof.
  unfold login_form, autenticar_usuario. desdobrar.
  destruct (usuario_por_email username b) as [usuario|]; [|reflexivity].
  destruct (verify bcrypt_context password (Usuario.senha usuario)); reflexivity.
Qed.

(** The order routes never write the user table. *)
Lemma usuarios_pedir (rota : RotaPedido) (usuario : Usuario.t) (b : Banco) :
  usuarios (snd (pedir rota usuario b)) = usuarios b.
Proof.
  unfold pedir.
  destruct rota as [ps|id| |id s|id|id|id| ]; cbn [order_router];
    rewrite executar_fmap; cbn [snd].
  - rewrite executar_criar_pedido.
    destruct (cabe_em_int64 (ps_usuario ps)); reflexivity.
  - rewrite executar_cancelar_pedido.
    destruct (pedido_por_id id b) as [p|]; [destruct (sem_autorizacao usuario p)|];
      reflexivity.
  - rewrite executar_listar_pedidos. reflexivity.
  - rewrite executar_adicionar_item_pedido.
    destruct (pedido_por_id id b) as [p|]; [destruct (sem_autorizacao usuario p)|];
      reflexivity.
  - rewrite executar_remover_item_pedido.
    destruct (item_por_id id b) as [i|]; [|reflexivity].
    destruct (pedido_por_id id b) as [p|]; [destruct (sem_autorizacao usuario p)|];
      reflexivity.
  - rewrite executar_finalizar_pedido.
    destruct (pedido_por_id id b) as [p|]; [destruct (sem_autorizacao usuario p)|];
      reflexivity.
  - rewrite executar_visualizar_pedido.
    destruct (pedido_por_id id b) as [p|]; [destruct (sem_autorizacao usuario p)|];
      reflexivity.
  - reflexivity.
Qed.

(** X1.  A request that raises commits nothing: whenever an order route or
    [criar_conta] answers with an exception, the database is the one the
    request found.  This includes the removal that has already called
    [session.delete] when [pedido.calcular_preco()] fails on a missing
    order. *)
Theorem X1_excecao_nao_grava :
  forall (bcrypt_context : CryptContext) (b : Banco) (e : Excecao),
    (forall rota usuario,
        fst (pedir rota usuario b) = inl e -> snd (pedir rota usuario b) = b)
    /\ (forall usuario_schema sal,
        fst (executar (criar_conta bcrypt_context usuario_schema sal) b) = inl e ->
        snd (executar (criar_conta bcrypt_context usuario_schema sal) b) = b).
Proof.
  intros ctx b e. split.
  - intros rota usuario. unfold pedir.
    destruct rota as [ps|id| |id s|id|id|id| ]; cbn [order_router];
      rewrite executar_fmap; cbn [fst snd].
    + rewrite executar_criar_pedido.
      destruct (cabe_em_int64 (ps_usuario ps)); cbn [fst snd];
        (discriminate || reflexivity).
    + rewrite executar_cancelar_pedido.
      destruct (pedido_por_id id b) as [p|]; [destruct (sem_autorizacao usuario p)|];
        cbn [fst snd]; (discriminate || reflexivity).
    + rewrite executar_listar_pedidos. reflexivity.
    + rewrite executar_adicionar_item_pedido.
      destruct (pedido_por_id id b) as [p|]; [destruct (sem_autorizacao usuario p)|];
        cbn [fst snd]; (discriminate || reflexivity).
    + rewrite executar_remover_item_pedido.
      destruct (item_por_id id b) as [i|]; [|reflexivity].
      destruct (pedido_por_id id b) as [p|]; [destruct (sem_autorizacao usuario p)|];
        cbn [fst snd]; (discriminate || reflexivity).
    + rewrite executar_finalizar_pedido.
      destruct (pedido_por_id id b) as [p|]; [destruct (sem_autorizacao usuario p)|];
        cbn [fst snd]; (discriminate || reflexivity).
    + rewrite executar_visualizar_pedido.
      destruct (pedido_por_id id b) as [p|]; [destruct (sem_autorizacao usuario p)|];
        cbn [fst snd]; (discriminate || reflexivity).
    + reflexivity.
  - intros s sal. rewrite executar_criar_conta.
    destruct (usuario_por_email (us_email s) b); cbn [fst snd];
      (discriminate || reflexivity).
Qed.

(** An administrator asks to remove item 2 where there is no order 2: the
    deletion is requested, the recomputation fails, the item is still
    there. *)
Lemma X1_excecao_nao_grava_witness :
  fst (pedir (RemoverItem 2) rui_admin banco_dois_itens)
  = inl (AttributeError "calcular_preco")
  /\ snd (pedir (RemoverItem 2) rui_admin banco_dois_itens) = banco_dois_itens.
Proof.
  assert (H : fst (pedir (RemoverItem 2) rui_admin banco_dois_itens)
              = inl (AttributeError "calcular_preco")) by (vm_compute; reflexivity).
  exact (conj H (proj1 (X1_excecao_nao_grava bcrypt_exemplo banco_dois_itens _)
                   (RemoverItem 2) rui_admin H)).
Defined.

(** X2.  Listing, viewing and authenticating only read: whatever they
    answer, [listar_pedidos], [visualizar_pedido], [listar_pedidos_usuario],
    [autenticar_usuario], [login] and [login_form] leave the database as
    it was. *)
Theorem X2_rotas_de_leitura :
  forall (bcrypt_context : CryptContext)
         (assinar : string -> string -> Claims -> string) (config : Config)
         (usuario : Usuario.t) (id_pedido : Z) (email senha : string)
         (agora1 agora2 : Z) (b : Banco),
    snd (pedir Listar usuario b) = b
    /\ snd (pedir (Visualizar id_pedido) usuario b) = b
    /\ snd (pedir PedidosUsuario usuario b) = b
    /\ snd (executar (autenticar_usuario bcrypt_context email senha) b) = b
    /\ snd (executar (login bcrypt_context assinar config
                        {| ls_email := email; ls_senha := senha |} agora1 agora2) b) = b
    /\ snd (executar (login_form bcrypt_context assinar config email senha agora1) b) = b.
Proof.
  intros ctx assinar config usuario id email senha t1 t2 b.
  unfold pedir. cbn [order_router]. rewrite !executar_fmap. cbn [snd].
  rewrite executar_listar_pedidos, executar_visualizar_pedido,
    executar_autenticar_usuario, executar_login, executar_login_form.
  repeat split.
  destruct (pedido_por_id id b) as [p|]; [destruct (sem_autorizacao usuario p)|];
    reflexivity.
Qed.

(** ** Adding an item *)



(** X4.  After a successful addition to an order, the same caller viewing
    the order is answered one item more than the order had and the order
    with the total the addition answered. *)
Theorem X4_adicionar_depois_visualizar :
  forall (id_pedido : Z) (s : ItemPedidoSchema) (usuario : Usuario.t)
         (b b' : Banco) (item_id : Z) (total : float),
    pedir (AdicionarItem id_pedido s) usuario b = (inr (ItemCriado item_id total), b') ->
    exists pedido,
      pedir (Visualizar id_pedido) usuario b'
      = (inr (PedidoVisualizado (S (List.length (itens_do_pedido id_pedido b))) pedido),
         b')
      /\ Pedido.id pedido = id_pedido
      /\ Pedido.preco pedido = total.
Proof.
  intros id s usuario b b' item_id total H.
  assert (Haut : exists p, pedido_por_id id b = Some p
                           /\ sem_autorizacao usuario p = false).
  { revert H. unfold pedir; cbn [order_router].
    rewrite executar_fmap, executar_adicionar_item_pedido.
    destruct (pedido_por_id id b) as [p|]; [|discriminate].
    destruct (sem_autorizacao usuario p) eqn:E; [discriminate|].
    intros _. exists p. auto. }
  destruct Haut as [p0 [Hp0 Haut]].
  destruct (adicionar_item_passo id s usuario b p0 _ _ Hp0 Haut eq_refl eq_refl)
    as [b2 [Hr [Hp2 [_ Hd2]]]].
  revert H. unfold pedir; cbn [order_router].
  rewrite !executar_fmap, Hr. cbn [fst snd]. intros H. injection H as <- <- <-.
  pose proof (pedido_por_id_some _ _ _ Hp0) as [_ Hid].
  match type of Hp2 with _ = Some ?p => exists p end.
  split; [|split; [exact Hid | reflexivity]].
  rewrite executar_visualizar_pedido, Hp2.
  match goal with
  | |- context [sem_autorizacao usuario (Pedido.com_preco p0 ?t)] =>
      change (sem_autorizacao usuario (Pedido.com_preco p0 t))
        with (sem_autorizacao usuario p0)
  end.
  rewrite Haut. cbn [fst snd Pedido.com_preco Pedido.id]. rewrite Hid, Hd2.
  rewrite length_app. cbn [List.length].
  replace (List.length (itens_do_pedido id b) + 1)%nat
    with (S (List.length (itens_do_pedido id b))) by lia.
  reflexivity.
Qed.

(** Ana adds a second pizza to order 1 and views it: two items. *)
Lemma X4_adicionar_depois_visualizar_witness :
  exists b' pedido,
    pedir (AdicionarItem 1 uma_pizza) ana banco_um_item
    = (inr (ItemCriado 2 (PyFloat.decimal 1000 100)), b')
    /\ pedir (Visualizar 1) ana b' = (inr (PedidoVisualizado 2 pedido), b')
    /\ Pedido.preco pedido = PyFloat.decimal 1000 100.
Proof.
  assert (H : pedir (AdicionarItem 1 uma_pizza) ana banco_um_item
              = (inr (ItemCriado 2 (PyFloat.decimal 1000 100)),
                 snd (pedir (AdicionarItem 1 uma_pizza) ana banco_um_item)))
    by (vm_compute; reflexivity).
  destruct (X4_adicionar_depois_visualizar 1 uma_pizza ana banco_um_item _ 2 _ H)
    as [pedido [Hv [_ Hp]]].
  exists (snd (pedir (AdicionarItem 1 uma_pizza) ana banco_um_item)), pedido.
  exact (conj H (conj Hv Hp)).
Defined.

(** ** Removing an item, whatever order is consulted *)

Lemma item_por_id_apagar_outro (j k : Z) (b : Banco) :
  j <> k -> item_por_id j (apagar_item k b) = item_por_id j b.
Proof.
  intros Hjk. unfold item_por_id, apagar_item. cbn [itens_pedido].
  induction (itens_pedido b) as [|i l IH]; cbn [find filter]; [reflexivity|].
  destruct (ItemPedido.id i =? k) eqn:E1; cbn [negb find].
  - assert ((ItemPedido.id i =? j) = false) as -> by lia. exact IH.
  - destruct (ItemPedido.id i =? j); [reflexivity | exact IH].
Qed.

(** X5.  Whenever [remover_item_pedido] succeeds, the item table is the
    old one without the item, every other item is still found by its id,
    and the user table is untouched; the only order row written is the
    one answered, the order whose id is the item id, which ends with the
    total derived from its own items; and asking again to remove the same
    item fails with "Item do Pedido Nao Existe". *)
Theorem X5_remover_item_efeito :
  forall (k : Z) (usuario : Usuario.t) (b b' : Banco) (n : nat) (pedido : Pedido.t),
    pedir (RemoverItem k) usuario b = (inr (ItemRemovido n pedido), b') ->
    itens_pedido b' = filter (fun i => negb (ItemPedido.id i =? k)) (itens_pedido b)
    /\ item_por_id k b' = None
    /\ (forall j, j <> k -> item_por_id j b' = item_por_id j b)
    /\ usuarios b' = usuarios b
    /\ pedido_por_id k b' = Some pedido
    /\ total_derivado b' pedido
    /\ (forall j, j <> k -> pedido_por_id j b' = pedido_por_id j b)
    /\ pedir (RemoverItem k) usuario b'
       = (inl (HTTPException 400 detalhe_item_nao_existe), b').
Proof.
  intros k usuario b b' n pedido. unfold pedir; cbn [order_router].
  rewrite !executar_fmap, executar_remover_item_pedido.
  destruct (item_por_id k b) as [item|] eqn:Ei; [|discriminate].
  destruct (pedido_por_id k b) as [p|] eqn:Ep; [|discriminate].
  destruct (sem_autorizacao usuario p); [discriminate|].
  pose proof (item_por_id_some _ _ _ Ei) as [_ Hik].
  pose proof (pedido_por_id_some _ _ _ Ep) as [_ Hpk].
  unfold banco_apos_remover. cbv zeta. rewrite Hik, Hpk. cbn [fst snd].
  intros H. injection H as _ <- <-.
  set (novo := Pedido.com_preco p (soma_dos_itens k (apagar_item k b))).
  assert (Hn : Pedido.id novo = k) by exact Hpk.
  assert (Hnone : item_por_id k (gravar_pedido novo (apagar_item k b)) = None)
    by apply item_por_id_apagar.
  split; [reflexivity|].
  split; [exact Hnone|].
  split; [intros j Hj; exact (item_por_id_apagar_outro j k b Hj)|].
  split; [reflexivity|].
  split.
  { rewrite <- Hn at 1. apply pedido_por_id_gravar with (q := p).
    rewrite Hn. exact Ep. }
  split.
  { unfold total_derivado. rewrite soma_dos_itens_gravar, Hn. reflexivity. }
  split.
  { intros j Hj. rewrite pedido_por_id_gravar_outro by (rewrite Hn; exact Hj).
    reflexivity. }
  rewrite executar_remover_item_pedido, Hnone. reflexivity.
Qed.

(** Ana removes item 1 of her order 1; asking again fails. *)
Lemma X5_remover_item_efeito_witness :
  exists n pedido b',
    pedir (RemoverItem 1) ana banco_um_item = (inr (ItemRemovido n pedido), b')
    /\ item_por_id 1 b' = None
    /\ total_derivado b' pedido
    /\ pedir (RemoverItem 1) ana b'
       = (inl (HTTPException 400 detalhe_item_nao_existe), b').
Proof.
  assert (H : pedir (RemoverItem 1) ana banco_um_item
              = (inr (ItemRemovido 0
                        {| Pedido.id := 1; Pedido.status := "PENDENTE";
                           Pedido.usuario := 1; Pedido.preco := PyFloat.of_int 0 |}),
                 snd (pedir (RemoverItem 1) ana banco_um_item)))
    by (vm_compute; reflexivity).
  destruct (X5_remover_item_efeito 1 ana banco_um_item _ _ _ H)
    as [_ [H2 [_ [_ [_ [H6 [_ H8]]]]]]].
  do 3 eexists. exact (conj H (conj H2 (conj H6 H8))).
Defined.

(** ** Cancelling and finalizing *)

(** X6.  A successful [cancelar_pedido] or [finalizar_pedido] writes only
    the status column of that order: the answered order is the stored one
    with the new status, so its total and owner are kept; items, users and
    the other orders are as before.  Repeating the request answers the
    same order and leaves the database as the first one left it. *)
Theorem X6_mudar_status_so_muda_status :
  forall (id_pedido : Z) (usuario : Usuario.t) (b b' : Banco) (p : Pedido.t),
    (pedir (Cancelar id_pedido) usuario b = (inr (PedidoCancelado p), b') ->
     (exists p0, pedido_por_id id_pedido b = Some p0
                 /\ p = Pedido.com_status p0 "CANCELADO")
     /\ pedido_por_id id_pedido b' = Some p
     /\ itens_pedido b' = itens_pedido b
     /\ usuarios b' = usuarios b
     /\ (forall k, k <> id_pedido -> pedido_por_id k b' = pedido_por_id k b)
     /\ pedir (Cancelar id_pedido) usuario b' = (inr (PedidoCancelado p), b'))
    /\ (pedir (Finalizar id_pedido) usuario b = (inr (PedidoFinalizado p), b') ->
     (exists p0, pedido_por_id id_pedido b = Some p0
                 /\ p = Pedido.com_status p0 "FINALIZADO")
     /\ pedido_por_id id_pedido b' = Some p
     /\ itens_pedido b' = itens_pedido b
     /\ usuarios b' = usuarios b
     /\ (forall k, k <> id_pedido -> pedido_por_id k b' = pedido_por_id k b)
     /\ pedir (Finalizar id_pedido) usuario b' = (inr (PedidoFinalizado p), b')).
Proof.
  intros id usuario b b' p. unfold pedir; cbn [order_router].
  rewrite !executar_fmap, executar_cancelar_pedido, executar_finalizar_pedido.
  destruct (pedido_por_id id b) as [p0|] eqn:Ep; [|split; discriminate].
  destruct (sem_autorizacao usuario p0) eqn:Ea; [split; discriminate|].
  split; cbn [fst snd]; intros H; injection H as <- <-.
  - destruct (mudanca_de_status "CANCELADO" id usuario b p0 Ep)
      as [H1 [H2 [H3 [H4 H5]]]].
    split; [exists p0; auto|]. split; [exact H1|].
    split; [reflexivity|]. split; [reflexivity|]. split; [exact H5|].
    rewrite executar_cancelar_pedido, H1, H3, Ea, H2, H4. reflexivity.
  - destruct (mudanca_de_status "FINALIZADO" id usuario b p0 Ep)
      as [H1 [H2 [H3 [H4 H5]]]].
    split; [exists p0; auto|]. split; [exact H1|].
    split; [reflexivity|]. split; [reflexivity|]. split; [exact H5|].
    rewrite executar_finalizar_pedido, H1, H3, Ea, H2, H4. reflexivity.
Qed.

(** Ana cancels her order 1, which holds one pizza, twice. *)
Lemma X6_mudar_status_so_muda_status_witness :
  exists p b',
    pedir (Cancelar 1) ana banco_um_item = (inr (PedidoCancelado p), b')
    /\ Pedido.preco p = total_5_00
    /\ itens_pedido b' = itens_pedido banco_um_item
    /\ pedir (Cancelar 1) ana b' = (inr (PedidoCancelado p), b').
Proof.
  assert (H : pedir (Cancelar 1) ana banco_um_item
              = (inr (PedidoCancelado
                        {| Pedido.id := 1; Pedido.status := "CANCELADO";
                           Pedido.usuario := 1; Pedido.preco := total_5_00 |}),
                 snd (pedir (Cancelar 1) ana banco_um_item)))
    by (vm_compute; reflexivity).
  destruct (proj1 (X6_mudar_status_so_muda_status 1 ana banco_um_item _ _) H)
    as [_ [_ [H3 [_ [_ H6]]]]].
  do 2 eexists. exact (conj H (conj eq_refl (conj H3 H6))).
Defined.



(** ** Orders and their owners *)

(** X8.  Since [criar_pedido] takes the owner from the body, a caller who
    is not an administrator and opens an order for another user id (one
    that fits the signed 64-bit column) is locked out of it: the order is
    stored under the answered id as a new order of that owner, and cancel,
    finalize, add-item and view of it answer Unauthorized for the creator
    and leave the database alone, while for a user whose id is the owner
    named in the body they have their effect ([efeito_da_operacao]): the
    status is answered and stored, the item is stored in the order and the
    total recomputed, the order is answered with its item count. *)
Theorem X8_criador_sem_acesso :
  forall (criador dono : Usuario.t) (b : Banco) (op : OperacaoPedido),
    Usuario.admin criador = false ->
    Usuario.id criador <> Usuario.id dono ->
    - 2 ^ 63 <= Usuario.id dono < 2 ^ 63 ->
    exists id_pedido b1,
      pedir (CriarPedido {| ps_usuario := Usuario.id dono |}) criador b
      = (inr (PedidoCriado id_pedido), b1)
      /\ pedido_por_id id_pedido b = None
      /\ pedido_por_id id_pedido b1 = Some (Pedido.novo (Usuario.id dono) id_pedido)
      /\ pedir (rota_de op id_pedido) criador b1 = (inl Unauthorized, b1)
      /\ efeito_da_operacao op id_pedido dono
           (Pedido.novo (Usuario.id dono) id_pedido) b1.
Proof.
  intros criador dono b op Hadm Hne Hr.
  set (n := proximo_id (map Pedido.id (pedidos b))).
  set (b1 := inserir_pedido (Pedido.novo (Usuario.id dono)) b).
  set (p := Pedido.novo (Usuario.id dono) n).
  assert (Hn : pedido_por_id n b = None)
    by exact (pedido_por_id_none _ b (proximo_id_novo (map Pedido.id (pedidos b)))).
  assert (Hp : pedido_por_id n b1 = Some p).
  { unfold pedido_por_id, b1, inserir_pedido. cbn [pedidos].
    rewrite find_app_none by exact Hn.
    cbn [find Pedido.novo Pedido.init Pedido.id]. fold n.
    rewrite Z.eqb_refl. reflexivity. }
  assert (Hc : sem_autorizacao criador p = true).
  { unfold sem_autorizacao. rewrite Hadm.
    cbn [p Pedido.novo Pedido.init Pedido.usuario negb andb].
    destruct (Usuario.id criador =? Usuario.id dono) eqn:E; [lia | reflexivity]. }
  assert (Hd : sem_autorizacao dono p = false).
  { unfold sem_autorizacao.
    cbn [p Pedido.novo Pedido.init Pedido.usuario]. rewrite Z.eqb_refl.
    destruct (Usuario.admin dono); reflexivity. }
  assert (Hcabe : cabe_em_int64 (Usuario.id dono) = true).
  { unfold cabe_em_int64. apply andb_true_intro. split; lia. }
  exists n, b1. split.
  { unfold pedir. cbn [order_router]. rewrite executar_fmap, executar_criar_pedido.
    cbn [ps_usuario]. rewrite Hcabe. reflexivity. }
  split; [exact Hn|]. split; [exact Hp|].
  split; [|exact (operacao_autorizada op n dono p b1 Hp Hd)].
  unfold pedir.
  destruct op as [| |s|]; cbn [rota_de order_router]; rewrite executar_fmap;
    [ rewrite executar_cancelar_pedido
    | rewrite executar_finalizar_pedido
    | rewrite executar_adicionar_item_pedido
    | rewrite executar_visualizar_pedido ];
    rewrite Hp, Hc; reflexivity.
Qed.

(** Bia opens an order in Ana's name: it is order 1, Bia cannot view it,
    and Ana is shown it, pending, with no items and total 0. *)
Lemma X8_criador_sem_acesso_witness :
  Usuario.admin bia = false
  /\ Usuario.id bia <> Usuario.id ana
  /\ - 2 ^ 63 <= Usuario.id ana < 2 ^ 63
  /\ exists b1,
       pedir (CriarPedido {| ps_usuario := 1 |}) bia banco_contas
       = (inr (PedidoCriado 1), b1)
       /\ pedir (Visualizar 1) bia b1 = (inl Unauthorized, b1)
       /\ pedir (Visualizar 1) ana b1
          = (inr (PedidoVisualizado 0
                    {| Pedido.id := 1; Pedido.status := "PENDENTE";
                       Pedido.usuario := 1; Pedido.preco := PyFloat.of_int 0 |}),
             b1).
Proof.
  assert (H1 : Usuario.admin bia = false) by reflexivity.
  assert (H2 : Usuario.id bia <> Usuario.id ana) by discriminate.
  assert (H3 : - 2 ^ 63 <= Usuario.id ana < 2 ^ 63) by (cbn; lia).
  destruct (X8_criador_sem_acesso bia ana banco_contas OpVisualizar H1 H2 H3)
    as [id_pedido [b1 [Hc [_ [_ [Hb Ha]]]]]].
  assert (Hid : id_pedido = 1).
  { assert (H : fst (pedir (CriarPedido {| ps_usuario := Usuario.id ana |}) bia
                       banco_contas) = inr (PedidoCriado 1))
      by (vm_compute; reflexivity).
    rewrite Hc in H. cbn [fst] in H. injection H as H. exact H. }
  subst id_pedido.
  assert (Hitens : itens_do_pedido 1 b1 = []).
  { assert (H : itens_do_pedido 1
                  (snd (pedir (CriarPedido {| ps_usuario := Usuario.id ana |}) bia
                          banco_contas)) = [])
      by (vm_compute; reflexivity).
    rewrite Hc in H. exact H. }
  cbn [efeito_da_operacao rota_de] in Ha, Hb. rewrite Hitens in Ha.
  exact (conj H1 (conj H2 (conj H3
           (ex_intro _ b1 (conj Hc (conj Hb Ha)))))).
Defined.

(** X9.  No order route deletes an order or changes its id or its owner:
    an order found before a request is found after it, under the same id
    and with the same owner. *)
Theorem X9_pedido_permanece :
  forall (rota : RotaPedido) (usuario : Usuario.t) (b : Banco) (id : Z) (p : Pedido.t),
    pedido_por_id id b = Some p ->
    exists p',
      pedido_por_id id (snd (pedir rota usuario b)) = Some p'
      /\ Pedido.id p' = Pedido.id p
      /\ Pedido.usuario p' = Pedido.usuario p.
Proof.
  intros rota usuario b id p Hp.
  assert (Hgravar : forall q0 q b0,
             pedido_por_id id b0 = Some p ->
             pedido_por_id (Pedido.id q0) b0 = Some q0 ->
             Pedido.id q = Pedido.id q0 ->
             Pedido.usuario q = Pedido.usuario q0 ->
             exists p',
               pedido_por_id id (gravar_pedido q b0) = Some p'
               /\ Pedido.id p' = Pedido.id p
               /\ Pedido.usuario p' = Pedido.usuario p).
  { intros q0 q b0 Hp0 Hq0 Hi Hu.
    pose proof (pedido_por_id_some _ _ _ Hp0) as [_ Hpid].
    destruct (Z.eq_dec id (Pedido.id q)) as [-> | Hne].
    - exists q. rewrite Hi in Hp0. rewrite Hq0 in Hp0. injection Hp0 as <-.
      split; [|split; assumption].
      apply pedido_por_id_gravar with (q := q0). rewrite Hi. exact Hq0.
    - exists p. rewrite pedido_por_id_gravar_outro by exact Hne. auto. }
  assert (Hmesmo : forall k q b0, pedido_por_id k b0 = Some q ->
                                  pedido_por_id (Pedido.id q) b0 = Some q).
  { intros k q b0 Hq. pose proof (pedido_por_id_some _ _ _ Hq) as [_ ->]. exact Hq. }
  unfold pedir.
  destruct rota as [ps|k| |k s|k|k|k| ]; cbn [order_router];
    rewrite executar_fmap; cbn [snd].
  - rewrite executar_criar_pedido.
    destruct (cabe_em_int64 (ps_usuario ps)); cbn [snd]; [|exists p; auto].
    exists p. unfold pedido_por_id, inserir_pedido in *. cbn [pedidos].
    rewrite find_app_some with (a := p) by exact Hp. auto.
  - rewrite executar_cancelar_pedido.
    destruct (pedido_por_id k b) as [q|] eqn:Eq;
      [destruct (sem_autorizacao usuario q)|]; cbn [snd];
      try solve [exists p; auto].
    apply Hgravar with (q0 := q); auto. exact (Hmesmo k _ _ Eq).
  - rewrite executar_listar_pedidos. exists p. auto.
  - rewrite executar_adicionar_item_pedido.
    destruct (pedido_por_id k b) as [q|] eqn:Eq;
      [destruct (sem_autorizacao usuario q)|]; cbn [snd];
      try solve [exists p; auto].
    unfold banco_apos_adicionar. cbv zeta.
    apply Hgravar with (q0 := q); auto. exact (Hmesmo k _ _ Eq).
  - rewrite executar_remover_item_pedido.
    destruct (item_por_id k b) as [i|]; [|exists p; auto].
    destruct (pedido_por_id k b) as [q|] eqn:Eq;
      [destruct (sem_autorizacao usuario q)|]; cbn [snd];
      try solve [exists p; auto].
    unfold banco_apos_remover. cbv zeta.
    apply Hgravar with (q0 := q); auto. exact (Hmesmo k _ _ Eq).
  - rewrite executar_finalizar_pedido.
    destruct (pedido_por_id k b) as [q|] eqn:Eq;
      [destruct (sem_autorizacao usuario q)|]; cbn [snd];
      try solve [exists p; auto].
    apply Hgravar with (q0 := q); auto. exact (Hmesmo k _ _ Eq).
  - rewrite executar_visualizar_pedido.
    destruct (pedido_por_id k b) as [q|];
      [destruct (sem_autorizacao usuario q)|]; cbn [snd]; exists p; auto.
  - exists p. auto.
Qed.

(** Order 2, Ana's, is still hers after the removal that consulted
    order 1. *)
Lemma X9_pedido_permanece_witness :
  exists p p',
    pedido_por_id 2 banco_dois_pedidos = Some p
    /\ pedido_por_id 2 (snd (pedir (RemoverItem 1) ana banco_dois_pedidos)) = Some p'
    /\ Pedido.id p' = Pedido.id p
    /\ Pedido.usuario p' = Pedido.usuario p.
Proof.
  assert (H : pedido_por_id 2 banco_dois_pedidos
              = Some {| Pedido.id := 2; Pedido.status := "PENDENTE";
                        Pedido.usuario := 1; Pedido.preco := total_5_00 |})
    by (vm_compute; reflexivity).
  destruct (X9_pedido_permanece (RemoverItem 1) ana banco_dois_pedidos 2 _ H)
    as [p' Hp'].
  eexists. exists p'. exact (conj H Hp').
Defined.

(** ** Accounts *)

(** X10.  Accounts are only ever appended: the order routes never write
    the user table, and [criar_conta] either leaves it as it was or adds
    one record at its end.  No request changes or deletes a stored
    account, so its flags, [admin] included, stay as registered. *)
Theorem X10_contas_so_crescem :
  forall (bcrypt_context : CryptContext) (b : Banco),
    (forall rota usuario, usuarios (snd (pedir rota usuario b)) = usuarios b)
    /\ (forall usuario_schema sal,
          exists novos,
            usuarios (snd (executar (criar_conta bcrypt_context usuario_schema sal) b))
            = (usuarios b ++ novos)%list
            /\ (List.length novos <= 1)%nat
            /\ pedidos (snd (executar (criar_conta bcrypt_context usuario_schema sal) b))
               = pedidos b
            /\ itens_pedido
                 (snd (executar (criar_conta bcrypt_context usuario_schema sal) b))
               = itens_pedido b).
Proof.
  intros ctx b. split; [intros; apply usuarios_pedir|].
  intros s sal. rewrite executar_criar_conta.
  destruct (usuario_por_email (us_email s) b); cbn [snd].
  - exists []. rewrite app_nil_r. cbn [List.length]. repeat split; lia.
  - eexists [_]. cbn [List.length]. repeat split; lia.
Qed.

Lemma usuario_por_email_ausente (email : string) (b : Banco) :
  usuario_por_email email b = None ->
  ~ In email (map Usuario.email (usuarios b)).
Proof.
  unfold usuario_por_email. intros Hnone Hin.
  apply in_map_iff in Hin. destruct Hin as [u [Heq Hin]].
  apply find_none with (x := u) in Hnone; [|exact Hin].
  apply String.eqb_neq in Hnone. contradiction.
Qed.

Lemma NoDup_snoc {A} (l : list A) (x : A) :
  NoDup l -> ~ In x l -> NoDup (l ++ [x]).
Proof.
  intros Hl Hx. induction Hl as [|y l Hy Hl IH]; cbn [app].
  - constructor; [intros [] | constructor].
  - constructor.
    + intros Hin. apply in_app_or in Hin. destruct Hin as [Hin | [<- | []]].
      * contradiction.
      * apply Hx. left. reflexivity.
    + apply IH. intros Hin. apply Hx. right. exact Hin.
Qed.

Lemma emails_unicos_criar_conta (bcrypt_context : CryptContext)
  (usuario_schema : UsuarioSchema) (sal : string) (b : Banco) :
  emails_unicos b ->
  emails_unicos (snd (executar (criar_conta bcrypt_context usuario_schema sal) b)).
Proof.
  unfold emails_unicos. intros H. rewrite executar_criar_conta.
  destruct (usuario_por_email (us_email usuario_schema) b) eqn:E; cbn [snd];
    [exact H|].
  unfold inserir_usuario. cbn [usuarios]. rewrite map_app. cbn [map Usuario.email].
  apply NoDup_snoc; [exact H | apply usuario_por_email_ausente, E].
Qed.

(** With distinct emails, the lookup by the email of a stored account
    finds that account. *)
Lemma usuario_por_email_de_conta (b : Banco) (u : Usuario.t) :
  emails_unicos b -> In u (usuarios b) ->
  usuario_por_email (Usuario.email u) b = Some u.
Proof.
  unfold emails_unicos, usuario_por_email.
  induction (usuarios b) as [|v l IH]; cbn [map In find]; [intros _ []|].
  intros Hnd [-> | Hin].
  - rewrite String.eqb_refl. reflexivity.
  - inversion Hnd as [|x xs Hv Hl]; subst.
    destruct (String.eqb (Usuario.email v) (Usuario.email u)) eqn:E.
    + apply String.eqb_eq in E. exfalso. apply Hv. rewrite E.
      apply in_map, Hin.
    + apply IH; assumption.
Qed.

(** X11.  In every database the service reaches no two accounts share an
    email, whatever their [ativo] flag: [criar_conta] is the only writer
    of the user table and refuses an email that is already stored.  So
    the account [autenticar_usuario] fetches for the email of a stored
    account is that account. *)
Theorem X11_emails_unicos :
  forall (bcrypt_context : CryptContext) (b : Banco),
    alcancavel bcrypt_context b ->
    emails_unicos b
    /\ forall u, In u (usuarios b) -> usuario_por_email (Usuario.email u) b = Some u.
Proof.
  intros ctx b Halc.
  assert (H : emails_unicos b).
  { induction Halc as [|b s sal _ IH|b rota usuario _ IH _].
    - constructor.
    - apply emails_unicos_criar_conta, IH.
    - unfold emails_unicos. rewrite usuarios_pedir. exact IH. }
  split; [exact H|]. intros u. apply usuario_por_email_de_conta, H.
Qed.

(** Ana and Bia, after Ana's requests. *)
Lemma X11_emails_unicos_witness :
  alcancavel bcrypt_exemplo banco_dois_pedidos
  /\ emails_unicos banco_dois_pedidos
  /\ usuario_por_email (Usuario.email bia) banco_dois_pedidos = Some bia.
Proof.
  pose proof (proj1 (proj2 (proj2 exemplos_alcancaveis))) as Halc.
  destruct (X11_emails_unicos bcrypt_exemplo banco_dois_pedidos Halc) as [H1 H2].
  refine (conj Halc (conj H1 (H2 bia _))).
  vm_compute. right. left. reflexivity.
Defined.

(** X12.  In every database the service reaches, every stored password is
    an output of [bcrypt_context.hash]: the only write of the [senha]
    column is the hash computed by [criar_conta]. *)
Theorem X12_senhas_sempre_cifradas :
  forall (bcrypt_context : CryptContext) (b : Banco),
    alcancavel bcrypt_context b -> senhas_cifradas bcrypt_context b.
Proof.
  intros ctx b Halc.
  induction Halc as [|b s sal _ IH|b rota usuario _ IH _].
  - intros u [].
  - rewrite executar_criar_conta.
    destruct (usuario_por_email (us_email s) b); cbn [snd]; [exact IH|].
    intros u Hu. unfold inserir_usuario in Hu. cbn [usuarios] in Hu.
    apply in_app_or in Hu. destruct Hu as [Hu | [<- | []]].
    + apply IH, Hu.
    + exists sal, (us_senha s). reflexivity.
  - unfold senhas_cifradas. rewrite usuarios_pedir. exact IH.
Qed.

Lemma X12_senhas_sempre_cifradas_witness :
  alcancavel bcrypt_exemplo banco_contas
  /\ senhas_cifradas bcrypt_exemplo banco_contas.
Proof.
  exact (conj banco_contas_alcancavel
           (X12_senhas_sempre_cifradas bcrypt_exemplo banco_contas
              banco_contas_alcancavel)).
Defined.

(** ** Invariants of the order tables *)

Lemma in_gravar_pedido (p q : Pedido.t) (b : Banco) :
  In q (pedidos (gravar_pedido p b)) -> q = p \/ In q (pedidos b).
Proof.
  unfold gravar_pedido. cbn [pedidos]. intros H. apply in_map_iff in H.
  destruct H as [r [Hr Hin]].
  destruct (Pedido.id r =? Pedido.id p); [left; auto | right; subst; exact Hin].
Qed.

Lemma status_validos_gravar (p : Pedido.t) (b : Banco) :
  status_conhecido (Pedido.status p) -> status_validos b ->
  status_validos (gravar_pedido p b).
Proof.
  intros Hp Hb q Hq. apply in_gravar_pedido in Hq.
  destruct Hq as [-> | Hq]; [exact Hp | apply Hb, Hq].
Qed.

Lemma status_validos_pedir (rota : RotaPedido) (usuario : Usuario.t) (b : Banco) :
  status_validos b -> status_validos (snd (pedir rota usuario b)).
Proof.
  intros H. unfold pedir.
  destruct rota as [ps|k| |k s|k|k|k| ]; cbn [order_router];
    rewrite executar_fmap; cbn [snd].
  - rewrite executar_criar_pedido.
    destruct (cabe_em_int64 (ps_usuario ps)); cbn [snd]; [|exact H].
    intros p Hp.
    unfold inserir_pedido in Hp. cbn [pedidos] in Hp.
    apply in_app_or in Hp. destruct Hp as [Hp | [<- | []]]; [apply H, Hp|].
    left. reflexivity.
  - rewrite executar_cancelar_pedido.
    destruct (pedido_por_id k b) as [q|];
      [destruct (sem_autorizacao usuario q)|]; cbn [snd]; try exact H.
    apply status_validos_gravar; [right; left; reflexivity | exact H].
  - rewrite executar_listar_pedidos. exact H.
  - rewrite executar_adicionar_item_pedido.
    destruct (pedido_por_id k b) as [q|] eqn:Eq;
      [destruct (sem_autorizacao usuario q)|]; cbn [snd]; try exact H.
    unfold banco_apos_adicionar. cbv zeta.
    apply status_validos_gravar; [|exact H].
    cbn [Pedido.com_preco Pedido.status].
    apply H. apply pedido_por_id_some in Eq. exact (proj1 Eq).
  - rewrite executar_remover_item_pedido.
    destruct (item_por_id k b) as [i|]; [|exact H].
    destruct (pedido_por_id k b) as [q|] eqn:Eq;
      [destruct (sem_autorizacao usuario q)|]; cbn [snd]; try exact H.
    unfold banco_apos_remover. cbv zeta.
    apply status_validos_gravar; [|exact H].
    cbn [Pedido.com_preco Pedido.status].
    apply H. apply pedido_por_id_some in Eq. exact (proj1 Eq).
  - rewrite executar_finalizar_pedido.
    destruct (pedido_por_id k b) as [q|];
      [destruct (sem_autorizacao usuario q)|]; cbn [snd]; try exact H.
    apply status_validos_gravar; [right; right; reflexivity | exact H].
  - rewrite executar_visualizar_pedido.
    destruct (pedido_por_id k b) as [q|];
      [destruct (sem_autorizacao usuario q)|]; exact H.
  - exact H.
Qed.

(** X13.  Although [status] is a free string column, every order of every
    database the service reaches has status PENDENTE, CANCELADO or
    FINALIZADO: orders are created PENDENTE and the only writes of the
    column are those of [cancelar_pedido] and [finalizar_pedido]. *)
Theorem X13_status_sempre_conhecido :
  forall (bcrypt_context : CryptContext) (b : Banco) (p : Pedido.t),
    alcancavel bcrypt_context b ->
    In p (pedidos b) ->
    status_conhecido (Pedido.status p).
Proof.
  intros ctx b p Halc. revert p.
  change (status_validos b).
  induction Halc as [|b s sal _ IH|b rota usuario _ IH _].
  - intros p [].
  - rewrite executar_criar_conta.
    destruct (usuario_por_email (us_email s) b); exact IH.
  - apply status_validos_pedir, IH.
Qed.

Lemma X13_status_sempre_conhecido_witness :
  alcancavel bcrypt_exemplo banco_um_item
  /\ In {| Pedido.id := 1; Pedido.status := "PENDENTE"; Pedido.usuario := 1;
           Pedido.preco := total_5_00 |} (pedidos banco_um_item)
  /\ status_conhecido "PENDENTE".
Proof.
  pose proof (proj1 exemplos_alcancaveis) as Halc.
  assert (Hin : In {| Pedido.id := 1; Pedido.status := "PENDENTE";
                      Pedido.usuario := 1; Pedido.preco := total_5_00 |}
                  (pedidos banco_um_item)) by (vm_compute; left; reflexivity).
  exact (conj Halc (conj Hin
           (X13_status_sempre_conhecido bcrypt_exemplo banco_um_item _ Halc Hin))).
Defined.

(** X14.  In every database the service reaches, the order an item names
    exists: foreign keys are not enforced by the store, but
    [adicionar_item_pedido] only inserts an item after finding its order,
    and no handler deletes an order. *)
Theorem X14_item_tem_pedido :
  forall (bcrypt_context : CryptContext) (b : Banco) (i : ItemPedido.t),
    alcancavel bcrypt_context b ->
    In i (itens_pedido b) ->
    exists p, pedido_por_id (ItemPedido.pedido i) b = Some p
              /\ Pedido.id p = ItemPedido.pedido i.
Proof.
  intros ctx b i Halc Hi.
  pose proof (alcancavel_integridade ctx b Halc i Hi) as Hin.
  destruct (pedido_por_id (ItemPedido.pedido i) b) as [p|] eqn:E.
  - exists p. split; [reflexivity|]. apply pedido_por_id_some in E. tauto.
  - exfalso. unfold pedido_por_id in E.
    apply in_map_iff in Hin. destruct Hin as [p [Hp Hpin]].
    apply find_none with (x := p) in E; [|exact Hpin]. lia.
Qed.

Lemma X14_item_tem_pedido_witness :
  alcancavel bcrypt_exemplo banco_dois_pedidos
  /\ In (ItemPedido.init 1 "Mussarela" "Grande" preco_5_00 2 1)
       (itens_pedido banco_dois_pedidos)
  /\ exists p, pedido_por_id 2 banco_dois_pedidos = Some p /\ Pedido.id p = 2.
Proof.
  pose proof (proj1 (proj2 (proj2 exemplos_alcancaveis))) as Halc.
  assert (Hin : In (ItemPedido.init 1 "Mussarela" "Grande" preco_5_00 2 1)
                  (itens_pedido banco_dois_pedidos))
    by (vm_compute; left; reflexivity).
  exact (conj Halc (conj Hin
           (X14_item_tem_pedido bcrypt_exemplo banco_dois_pedidos _ Halc Hin))).
Defined.

(** ** Registration, login and tokens *)

(** X15.  Register, then log in.  When the email is free and the password
    context verifies a password against its own hash, a login with the
    registered email and password succeeds on the database the
    registration leaves, whatever the [ativo] flag of the account; both
    tokens carry the id of the new account as subject, the access token
    expires [ACCESS_TOKEN_EXPIRE_MINUTES] minutes after its clock reading
    and the refresh token seven days after its own.  A password that does
    not verify against the stored hash is answered with the
    invalid-credentials exception. *)
Theorem X15_registrar_depois_login :
  forall (bcrypt_context : CryptContext)
         (assinar : string -> string -> Claims -> string) (config : Config)
         (usuario_schema : UsuarioSchema) (sal : string) (b : Banco)
         (agora1 agora2 : Z),
    usuario_por_email (us_email usuario_schema) b = None ->
    verify bcrypt_context (us_senha usuario_schema)
      (hash bcrypt_context sal (us_senha usuario_schema)) = true ->
    let b1 := snd (executar (criar_conta bcrypt_context usuario_schema sal) b) in
    let id := proximo_id (map Usuario.id (usuarios b)) in
    (exists access_token refresh_token,
        executar (login bcrypt_context assinar config
                    {| ls_email := us_email usuario_schema;
                       ls_senha := us_senha usuario_schema |} agora1 agora2) b1
        = (inr (access_token, refresh_token), b1)
        /\ sub (claims access_token) = Some (py_str id)
        /\ exp (claims access_token)
           = agora1 + 60 * ACCESS_TOKEN_EXPIRE_MINUTES config
        /\ sub (claims refresh_token) = Some (py_str id)
        /\ exp (claims refresh_token) = agora2 + 604800)
    /\ forall outra,
         verify bcrypt_context outra
           (hash bcrypt_context sal (us_senha usuario_schema)) = false ->
         executar (login bcrypt_context assinar config
                     {| ls_email := us_email usuario_schema; ls_senha := outra |}
                     agora1 agora2) b1
         = (inl InvalidCredentials, b1).
Proof.
  intros ctx assinar config s sal b t1 t2 Hnone Hver b1 id.
  set (u := Usuario.Build id (us_nome s) (us_email s)
              (hash ctx sal (us_senha s)) (us_ativo s) (us_admin s)).
  assert (Hu : usuario_por_email (us_email s) b1 = Some u).
  { unfold b1. rewrite executar_criar_conta, Hnone. cbn [snd].
    unfold usuario_por_email, inserir_usuario in *. cbn [usuarios].
    rewrite find_app_none by exact Hnone.
    cbn [find Usuario.email]. rewrite String.eqb_refl. reflexivity. }
  split.
  - do 2 eexists. rewrite executar_login, executar_autenticar_usuario.
    cbn [ls_email ls_senha fst]. rewrite Hu. cbn [u Usuario.senha]. rewrite Hver.
    split; [reflexivity|]. repeat split.
  - intros outra Hout. rewrite executar_login, executar_autenticar_usuario.
    cbn [ls_email ls_senha fst]. rewrite Hu. cbn [u Usuario.senha]. rewrite Hout.
    reflexivity.
Qed.

(** Caio registers with [ativo = False] and logs in. *)
Lemma X15_registrar_depois_login_witness :
  usuario_por_email (us_email conta_inativa) banco_vazio = None
  /\ verify bcrypt_exemplo (us_senha conta_inativa)
       (hash bcrypt_exemplo "s3" (us_senha conta_inativa)) = true
  /\ exists access_token refresh_token,
       executar (login bcrypt_exemplo assinar_exemplo config_exemplo
                   {| ls_email := "caio@pizza.br"; ls_senha := "senha" |} 1000 1001)
         banco_com_inativo
       = (inr (access_token, refresh_token), banco_com_inativo)
       /\ sub (claims access_token) = Some "1"
       /\ exp (claims access_token) = 2800
       /\ exp (claims refresh_token) = 605801.
Proof.
  assert (H1 : usuario_por_email (us_email conta_inativa) banco_vazio = None)
    by reflexivity.
  assert (H2 : verify bcrypt_exemplo (us_senha conta_inativa)
                 (hash bcrypt_exemplo "s3" (us_senha conta_inativa)) = true)
    by (vm_compute; reflexivity).
  destruct (proj1 (X15_registrar_depois_login bcrypt_exemplo assinar_exemplo
                     config_exemplo conta_inativa "s3" banco_vazio 1000 1001 H1 H2))
    as [a [r [Hl [Hs [He [_ Hr]]]]]].
  refine (conj H1 (conj H2 _)). exists a, r.
  exact (conj Hl (conj Hs (conj He Hr))).
Defined.

(** [str] is injective on integers. *)
Lemma py_str_injetiva (n m : Z) : py_str n = py_str m -> n = m.
Proof.
  intros H. pose proof (py_int_py_str n) as Hn. rewrite H, py_int_py_str in Hn.
  injection Hn as ->. reflexivity.
Qed.

(** X16.  A token names its user and its expiry: two tokens issued by
    [criar_token] under the same configuration are equal only if they
    were issued for the same user id and expire at the same instant.  In
    particular the tokens of two different users always differ. *)
Theorem X16_token_identifica_usuario :
  forall (assinar : string -> string -> Claims -> string) (config : Config)
         (t1 t2 id1 id2 L1 L2 : Z),
    criar_token assinar config t1 id1 L1 = criar_token assinar config t2 id2 L2 ->
    id1 = id2 /\ t1 + L1 = t2 + L2.
Proof.
  intros assinar config t1 t2 id1 id2 L1 L2 H.
  unfold criar_token, jwt_encode in H. injection H as Hsub Hexp _.
  split; [apply py_str_injetiva, Hsub | exact Hexp].
Qed.

Lemma X16_token_identifica_usuario_witness :
  criar_token assinar_exemplo config_exemplo 100 7 1800
  = criar_token assinar_exemplo config_exemplo 900 7 1000
  /\ 7 = 7 /\ 100 + 1800 = 900 + 1000.
Proof.
  assert (H : criar_token assinar_exemplo config_exemplo 100 7 1800
              = criar_token assinar_exemplo config_exemplo 900 7 1000)
    by (vm_compute; reflexivity).
  exact (conj H (X16_token_identifica_usuario assinar_exemplo config_exemplo
                   100 900 7 7 1800 1000 H)).
Defined.

(** X17.  [login_form] and [use_refresh_token] issue the access token of
    [login]: with the same credentials and clock reading, [login_form]
    fails exactly when [login] fails, with the same exception, and
    otherwise answers the first token of [login]; and for the user those
    credentials authenticate, [use_refresh_token] at that clock reading
    returns that same token. *)
Theorem X17_mesmo_token_de_acesso :
  forall (bcrypt_context : CryptContext)
         (assinar : string -> string -> Claims -> string) (config : Config)
         (email senha : string) (agora agora2 : Z) (b : Banco),
    fst (executar (login_form bcrypt_context assinar config email senha agora) b)
    = match fst (executar (login bcrypt_context assinar config
                             {| ls_email := email; ls_senha := senha |}
                             agora agora2) b) with
      | inl e => inl e
      | inr tokens => inr (fst tokens)
      end
    /\ forall usuario,
         fst (executar (autenticar_usuario bcrypt_context email senha) b)
         = inr (PyUsuario usuario) ->
         fst (executar (login_form bcrypt_context assinar config email senha agora) b)
         = inr (use_refresh_token assinar config usuario agora).
Proof.
  intros ctx assinar config email senha t t2 b.
  rewrite executar_login_form, executar_login. cbn [ls_email ls_senha fst].
  split.
  - destruct (fst (executar (autenticar_usuario ctx email senha) b)) as [e|[|u]];
      reflexivity.
  - intros u ->. reflexivity.
Qed.

(** Ana logs in by form; her refreshed token at the same instant is the
    same token. *)
Lemma X17_mesmo_token_de_acesso_witness :
  fst (executar (autenticar_usuario bcrypt_exemplo "ana@pizza.br" "segredo")
         banco_contas) = inr (PyUsuario ana)
  /\ fst (executar (login_form bcrypt_exemplo assinar_exemplo config_exemplo
                      "ana@pizza.br" "segredo" 1000) banco_contas)
     = inr (use_refresh_token assinar_exemplo config_exemplo ana 1000).
Proof.
  assert (H : fst (executar (autenticar_usuario bcrypt_exemplo "ana@pizza.br" "segredo")
                     banco_contas) = inr (PyUsuario ana))
    by (vm_compute; reflexivity).
  exact (conj H (proj2 (X17_mesmo_token_de_acesso bcrypt_exemplo assinar_exemplo
                          config_exemplo "ana@pizza.br" "segredo" 1000 0 banco_contas)
                   ana H)).
Defined.

(** ** Administrators and listings *)



(** X19.  [listar_pedidos_usuario] never fails and answers, in table
    order, exactly the orders whose owner column is the caller's id, for
    administrators too.  An order opened by [criar_pedido], by whatever
    caller, for an owner id that fits the signed 64-bit column, appears at
    the end of the list of the user whose id the body named, and in nobody
    else's; for an owner id outside that range [criar_pedido] ends in an
    OverflowError and stores nothing. *)
Theorem X19_pedidos_do_usuario :
  forall (usuario : Usuario.t) (b : Banco),
    exists meus,
      pedir PedidosUsuario usuario b = (inr (ListaPedidos meus), b)
      /\ (forall p, In p meus
                    <-> In p (pedidos b) /\ Pedido.usuario p = Usuario.id usuario)
      /\ forall criador x,
           if cabe_em_int64 x
           then exists id_pedido b1,
                  pedir (CriarPedido {| ps_usuario := x |}) criador b
                  = (inr (PedidoCriado id_pedido), b1)
                  /\ pedir PedidosUsuario usuario b1
                     = (inr (ListaPedidos
                               (meus ++ (if x =? Usuario.id usuario
                                         then [Pedido.novo x id_pedido]
                                         else []))), b1)
           else pedir (CriarPedido {| ps_usuario := x |}) criador b
                = (inl OverflowError, b).
Proof.
  intros usuario b. exists (pedidos_do_usuario (Usuario.id usuario) b).
  split; [reflexivity|]. split.
  - intros p. unfold pedidos_do_usuario. rewrite filter_In.
    split; intros [H1 H2]; (split; [exact H1 | lia]).
  - intros criador x.
    assert (Hc : pedir (CriarPedido {| ps_usuario := x |}) criador b
                 = if cabe_em_int64 x
                   then (inr (PedidoCriado (proximo_id (map Pedido.id (pedidos b)))),
                         inserir_pedido (Pedido.novo x) b)
                   else (inl OverflowError, b)).
    { unfold pedir; cbn [order_router].
      rewrite executar_fmap, executar_criar_pedido. cbn [ps_usuario].
      destruct (cabe_em_int64 x); reflexivity. }
    destruct (cabe_em_int64 x); [|exact Hc].
    exists (proximo_id (map Pedido.id (pedidos b))),
      (inserir_pedido (Pedido.novo x) b).
    split; [exact Hc|].
    unfold pedir; cbn [order_router]. rewrite executar_fmap.
    rewrite executar_listar_pedidos_usuario. cbn [fst snd].
    unfold pedidos_do_usuario, inserir_pedido. cbn [pedidos].
    rewrite filter_app. cbn [filter Pedido.novo Pedido.init Pedido.usuario].
    reflexivity.
Qed.

(** ** Who may remove an item *)


